(** * youtube_data_collector.py: subscription harvesting with a checkpoint file

    A shallow embedding of the class [YouTubeDataCollector] of
    [src/youtube_data_collector.py].

    - Python [str] values are [string]s; a character stands for the code
      point of the same number (0..255).
    - The [set] of processed channel ids is a [gset string].
    - The methods act on the checkpoint file, the [videos] table, the log
      and the remote platform.  They are functions from a system state to
      an outcome and a new system state; an [HttpError] is an outcome of
      its own, and the effects made before it are kept.
    - The [while True] loops follow the continuation tokens of the remote
      platform, which need not end: they take a bound on their number of
      iterations, and running into it is an outcome of its own.
    - The answers of the platform are typed records: the keys that the code
      reads with [d[key]] are fields, those it reads with [d.get(key)] or
      tests with [in] are options.
    - Left out: [authenticate], [create_tables] and [close]; the time
      stamps of the log; the progress bar of [tqdm]; the column affinity
      that SQLite applies to the values of an INSERT. *)

From Stdlib Require Import Ascii String.
From stdpp Require Import gmap strings list.

Open Scope string_scope.

Set Warnings "-clear-no-such-hyp".

(** ** Text: line boundaries, [str.splitlines], text-mode reading *)

Module Text.

Definition LF : ascii := "010"%char.
Definition CR : ascii := "013"%char.

Definition is_lf (c : ascii) : bool := Nat.eqb (nat_of_ascii c) 10.
Definition is_cr (c : ascii) : bool := Nat.eqb (nat_of_ascii c) 13.

(** The line boundaries of [str.splitlines] among the code points below
    256: \n, \v, \f, \r, \x1c, \x1d, \x1e and \x85. *)
Definition is_line_boundary (c : ascii) : bool :=
  existsb (Nat.eqb (nat_of_ascii c)) [10; 11; 12; 13; 28; 29; 30; 133]%nat.

(** [s.splitlines()], reading [s] from the left; [line] holds the
    characters read since the last boundary.  A \r\n pair is one boundary,
    and no empty last line is produced. *)
Fixpoint splitlines_from (line s : string) : list string :=
  match s with
  | EmptyString =>
      match line with
      | EmptyString => []
      | _ => [line]
      end
  | String c rest =>
      if is_line_boundary c then
        line ::
          (if is_cr c then
             match rest with
             | String c' rest' =>
                 if is_lf c' then splitlines_from "" rest'
                 else splitlines_from "" rest
             | EmptyString => splitlines_from "" rest
             end
           else splitlines_from "" rest)
      else splitlines_from (line ++ String c "") rest
  end.

Definition splitlines (s : string) : list string := splitlines_from "" s.

(** What [file.read()] returns for a file opened with [open(name, 'r')]:
    the universal-newlines mode turns \r\n and \r into \n. *)
Fixpoint universal_newlines (s : string) : string :=
  match s with
  | EmptyString => ""
  | String c rest =>
      if is_cr c then
        String LF
          match rest with
          | String c' rest' =>
              if is_lf c' then universal_newlines rest'
              else universal_newlines rest
          | EmptyString => ""
          end
      else String c (universal_newlines rest)
  end.

(** No character of [s] satisfies [p]. *)
Fixpoint free_of (p : ascii -> bool) (s : string) : bool :=
  match s with
  | EmptyString => true
  | String c rest => negb (p c) && free_of p rest
  end.

(** The characters that [save_processed_channels] writes for the ids [ids]:
    a line for each. *)
Fixpoint write_lines (ids : list string) : string :=
  match ids with
  | [] => ""
  | id :: rest => id ++ String LF (write_lines rest)
  end.

End Text.

(** ** Data of the remote platform and of the local store *)

(** A JSON scalar, as the statistics payload holds it. *)
Inductive JValue :=
| JInt (n : Z)
| JStr (s : string).

(** [item] of [subscriptions().list]: [item['snippet']['resourceId']['channelId']]
    and [item['snippet']['title']]. *)
Record Subscription := {
  channelId : string;
  title : string
}.

(** [video] of [search().list]: [video['id']['videoId']] and
    [video['snippet']['title']]. *)
Record Video := {
  videoId : string;
  video_snippet_title : string
}.

(** [statistics] of a [videos().list] item; the platform may omit each key. *)
Record Statistics := {
  viewCount : option JValue;
  likeCount : option JValue;
  commentCount : option JValue
}.

(** A list response: [response['items']] and [response.get('nextPageToken')]. *)
Record Page (A : Type) := {
  items : list A;
  nextPageToken : option string
}.
Arguments items {A} _.
Arguments nextPageToken {A} _.

(** The response of [videos().list]: the key ['items'] may be missing. *)
Record VideoDetails := {
  details_items : option (list Statistics)
}.

(** [googleapiclient.errors.HttpError]: [e.resp.status] and [e.content]. *)
Record HttpError := {
  status : nat;
  content : string
}.

(** The remote platform: each request answers from, and moves, a state [W]
    of the platform (so that the account can change during a run).
    [publishedAfter_now] is what line 99 computes from [datetime.now()]. *)
Record Api (W : Type) := {
  subscriptions_list :
    string -> option string -> W -> (HttpError + Page Subscription) * W;
  search_list :
    string -> string -> option string -> W -> (HttpError + Page Video) * W;
  videos_list :
    string -> W -> (HttpError + VideoDetails) * W;
  publishedAfter_now : W -> string
}.
Arguments subscriptions_list {W} _ _ _ _.
Arguments search_list {W} _ _ _ _ _.
Arguments videos_list {W} _ _ _.
Arguments publishedAfter_now {W} _ _.

(** The requests sent to the platform, in the order they are sent. *)
Inductive Request :=
| ReqSubscriptions (part : string) (pageToken : option string)
| ReqSearch (channel_id publishedAfter : string) (pageToken : option string)
| ReqVideos (id : string).

(** A row of [videos]: the five values bound to the INSERT statement. *)
Record Row := {
  channel_title : string;
  video_title : string;
  views : JValue;
  likes : JValue;
  comment_count : JValue
}.

Inductive Message :=
| Text (s : string)
| HttpErrorText (st : nat) (payload : string).

Inductive Level := INFO | ERROR.

(** The iteration order of a Python [set]: some enumeration of its
    elements, each once. *)
Record SetOrder := {
  iter_set : gset string -> list string;
  iter_set_perm : forall S : gset string, iter_set S ≡ₚ elements S
}.

Definition elements_order : SetOrder :=
  {| iter_set := elements; iter_set_perm := fun S => reflexivity (elements S) |}.

(** ** The system state and outcomes *)

Record Sys (W : Type) := {
  remote : W;
  checkpoint_file : option string;
  videos : list Row;
  log : list (Level * Message);
  stdout : list Message;
  requests : list Request;
  slept : nat
}.
Arguments remote {W} _.
Arguments checkpoint_file {W} _.
Arguments videos {W} _.
Arguments log {W} _.
Arguments stdout {W} _.
Arguments requests {W} _.
Arguments slept {W} _.

Inductive Outcome (A : Type) :=
| Returned (a : A)
| Raised (e : HttpError)
| OutOfFuel.
Arguments Returned {A} _.
Arguments Raised {A} _.
Arguments OutOfFuel {A}.

Definition M (W A : Type) : Type := Sys W -> Outcome A * Sys W.

Definition ret {W A} (a : A) : M W A := fun s => (Returned a, s).

Definition bind {W A B} (m : M W A) (k : A -> M W B) : M W B :=
  fun s =>
    match m s with
    | (Returned a, s') => k a s'
    | (Raised e, s') => (Raised e, s')
    | (OutOfFuel, s') => (OutOfFuel, s')
    end.

(** [try: body  except HttpError as e: handler e] *)
Definition try_except {W A} (body : M W A) (handler : HttpError -> M W A) : M W A :=
  fun s =>
    match body s with
    | (Raised e, s') => handler e s'
    | r => r
    end.

Notation "x <- m ;; k" := (bind m (fun x => k))
  (at level 100, m at next level, right associativity).
Notation "m ;;; k" := (bind m (fun _ => k))
  (at level 100, right associativity).

(** ** The collector *)

Section Collector.

Context {W : Type} (youtube : Api W) (order : SetOrder).

Local Abbreviation State := (Sys W).

Definition with_remote (w : W) (s : State) : State :=
  {| remote := w; checkpoint_file := checkpoint_file s; videos := videos s;
     log := log s; stdout := stdout s; requests := requests s; slept := slept s |}.

Definition with_checkpoint_file (f : option string) (s : State) : State :=
  {| remote := remote s; checkpoint_file := f; videos := videos s;
     log := log s; stdout := stdout s; requests := requests s; slept := slept s |}.

Definition with_videos (v : list Row) (s : State) : State :=
  {| remote := remote s; checkpoint_file := checkpoint_file s; videos := v;
     log := log s; stdout := stdout s; requests := requests s; slept := slept s |}.

Definition with_log (l : list (Level * Message)) (s : State) : State :=
  {| remote := remote s; checkpoint_file := checkpoint_file s; videos := videos s;
     log := l; stdout := stdout s; requests := requests s; slept := slept s |}.

Definition with_stdout (o : list Message) (s : State) : State :=
  {| remote := remote s; checkpoint_file := checkpoint_file s; videos := videos s;
     log := log s; stdout := o; requests := requests s; slept := slept s |}.

Definition with_requests (r : list Request) (s : State) : State :=
  {| remote := remote s; checkpoint_file := checkpoint_file s; videos := videos s;
     log := log s; stdout := stdout s; requests := r; slept := slept s |}.

Definition with_slept (n : nat) (s : State) : State :=
  {| remote := remote s; checkpoint_file := checkpoint_file s; videos := videos s;
     log := log s; stdout := stdout s; requests := requests s; slept := n |}.

(** *** Effects *)

(** [request.execute()]: the request is sent, the platform answers or the
    client library raises [HttpError]. *)
Definition execute {A} (req : Request) (answer : W -> (HttpError + A) * W) : M W A :=
  fun s =>
    let s1 := with_requests (requests s ++ [req]) s in
    match answer (remote s1) with
    | (inl e, w) => (Raised e, with_remote w s1)
    | (inr a, w) => (Returned a, with_remote w s1)
    end.

Definition logging (lvl : Level) (m : Message) : M W unit :=
  fun s => (Returned tt, with_log (log s ++ [(lvl, m)]) s).

Definition print (m : Message) : M W unit :=
  fun s => (Returned tt, with_stdout (stdout s ++ [m]) s).

(** [time.sleep]; the unit is a tenth of a second. *)
Definition sleep (tenths : nat) : M W unit :=
  fun s => (Returned tt, with_slept (slept s + tenths) s).

(** The truth value of [next_page_token]: [None] and the empty string are
    false. *)
Definition truthy (token : option string) : bool :=
  match token with
  | Some (String _ _) => true
  | _ => false
  end.

(** *** Lines 39-50 *)

Fixpoint get_total_subscription_count_loop
    (fuel count : nat) (next_page_token : option string) : M W nat :=
  match fuel with
  | O => fun s => (OutOfFuel, s)
  | S fuel' =>
      subscriptions <-
        execute (ReqSubscriptions "id" next_page_token)
                (subscriptions_list youtube "id" next_page_token) ;;
      let count := count + length (items subscriptions) in
      let next_page_token := nextPageToken subscriptions in
      if truthy next_page_token
      then get_total_subscription_count_loop fuel' count next_page_token
      else ret count
  end.

Definition get_total_subscription_count (fuel : nat) : M W nat :=
  get_total_subscription_count_loop fuel 0 None.

(** *** Lines 85-94 *)

Definition load_processed_channels : M W (gset string) :=
  fun s =>
    match checkpoint_file s with
    | Some file =>
        (Returned (list_to_set (Text.splitlines (Text.universal_newlines file))), s)
    | None => (Returned ∅, s)
    end.

(** [open(..., 'w')] empties the file; each [file.write] appends. *)
Definition save_processed_channels (processed_channels : gset string) : M W unit :=
  fun s =>
    let file :=
      foldl (fun file channel_id => file ++ (channel_id ++ String Text.LF ""))
            "" (iter_set order processed_channels) in
    (Returned tt, with_checkpoint_file (Some file) s).

(** *** Lines 128-135 *)

Definition get (field : option JValue) (default : JValue) : JValue :=
  match field with
  | Some v => v
  | None => default
  end.

Definition save_to_database
    (channel_title video_title : string) (statistics : Statistics) : M W unit :=
  fun s =>
    let views := get (viewCount statistics) (JInt 0) in
    let likes := get (likeCount statistics) (JInt 0) in
    let comment_count := get (commentCount statistics) (JInt 0) in
    (Returned tt,
     with_videos
       (videos s ++
        [{| channel_title := channel_title; video_title := video_title;
            views := views; likes := likes; comment_count := comment_count |}])
       s).

(** *** Lines 119-126 *)

Definition saved_message (video_title : string) : Message :=
  Text ("Video '" ++ video_title ++ "' data saved successfully.").

Definition process_video (channel_title : string) (video : Video) : M W unit :=
  let video_id := videoId video in
  let video_title := video_snippet_title video in
  video_details <- execute (ReqVideos video_id) (videos_list youtube video_id) ;;
  match details_items video_details with
  | Some (statistics :: _) =>
      save_to_database channel_title video_title statistics
  | _ => ret tt
  end ;;;
  logging INFO (saved_message video_title).

(** *** Lines 96-117 *)

Fixpoint process_videos (channel_title : string) (page_items : list Video) : M W unit :=
  match page_items with
  | [] => ret tt
  | video :: rest =>
      process_video channel_title video ;;;
      sleep 1 ;;;
      process_videos channel_title rest
  end.

Fixpoint process_subscription_loop
    (fuel : nat) (channel_id channel_title one_year_ago : string)
    (next_page_token : option string) : M W unit :=
  match fuel with
  | O => fun s => (OutOfFuel, s)
  | S fuel' =>
      videos_request <-
        execute (ReqSearch channel_id one_year_ago next_page_token)
                (search_list youtube channel_id one_year_ago next_page_token) ;;
      process_videos channel_title (items videos_request) ;;;
      let next_page_token := nextPageToken videos_request in
      if truthy next_page_token
      then sleep 100 ;;;
           process_subscription_loop fuel' channel_id channel_title one_year_ago
             next_page_token
      else ret tt
  end.

Definition process_subscription (fuel : nat) (item : Subscription) : M W unit :=
  let channel_id := channelId item in
  let channel_title := title item in
  one_year_ago <- (fun s => (Returned (publishedAfter_now youtube (remote s)), s)) ;;
  process_subscription_loop fuel channel_id channel_title one_year_ago None.

(** *** Lines 52-82 *)

(** Lines 63-67: the [for] loop over the items of one page. *)
Fixpoint fetch_items
    (fuel : nat) (page_items : list Subscription) (processed_channels : gset string)
    : M W (gset string) :=
  match page_items with
  | [] => ret processed_channels
  | item :: rest =>
      let channel_id := channelId item in
      processed_channels <-
        (if decide (channel_id ∈ processed_channels)
         then ret processed_channels
         else process_subscription fuel item ;;;
              ret ({[channel_id]} ∪ processed_channels)) ;;
      fetch_items fuel rest processed_channels
  end.

(** Lines 57-71: the [while] loop over the pages. *)
Fixpoint fetch_pages
    (fuel pages_left : nat) (next_page_token : option string)
    (processed_channels : gset string) : M W (gset string) :=
  match pages_left with
  | O => fun s => (OutOfFuel, s)
  | S pages_left' =>
      subscriptions <-
        execute (ReqSubscriptions "snippet" next_page_token)
                (subscriptions_list youtube "snippet" next_page_token) ;;
      processed_channels <- fetch_items fuel (items subscriptions) processed_channels ;;
      let next_page_token := nextPageToken subscriptions in
      if truthy next_page_token
      then fetch_pages fuel pages_left' next_page_token processed_channels
      else ret processed_channels
  end.

(** Lines 73-75. *)
Definition reset_when_complete
    (processed_channels : gset string) (total_subscriptions : nat) : gset string :=
  if decide (total_subscriptions <= size processed_channels)
  then ∅
  else processed_channels.

Definition completed_message : Message :=
  Text "Data fetching and storage completed successfully.".

Definition fetch_and_store_data (fuel : nat) : M W unit :=
  processed_channels <- load_processed_channels ;;
  total_subscriptions <- get_total_subscription_count fuel ;;
  try_except
    (processed_channels <- fetch_pages fuel fuel None processed_channels ;;
     let processed_channels :=
       reset_when_complete processed_channels total_subscriptions in
     save_processed_channels processed_channels ;;;
     logging INFO completed_message)
    (fun e =>
       logging ERROR (HttpErrorText (status e) (content e)) ;;;
       print (HttpErrorText (status e) (content e))).

End Collector.

(** ** Observations on a run *)

(** The channels for which [process_subscription] was entered, in order:
    its first request is the search request of line 102 with
    [pageToken=None]; the later ones carry a token. *)
Definition first_searches (reqs : list Request) : list string :=
  omap (fun r => match r with
                 | ReqSearch channel_id _ None => Some channel_id
                 | _ => None
                 end) reqs.

(** The ids of [ids] that lines 65-67 hand to [process_subscription] when
    the loop starts from the checkpoint [processed]: those not in it, each
    at its first occurrence. *)
Fixpoint to_process (processed : gset string) (ids : list string) : list string :=
  match ids with
  | [] => []
  | id :: rest =>
      if decide (id ∈ processed) then to_process processed rest
      else id :: to_process ({[id]} ∪ processed) rest
  end.

(** The set that [load_processed_channels] returns for a checkpoint file
    ([None]: there is no file). *)
Definition checkpoint_of (file : option string) : gset string :=
  match file with
  | Some text => list_to_set (Text.splitlines (Text.universal_newlines text))
  | None => ∅
  end.

(** No character of the id is a line boundary of [str.splitlines]. *)
Definition line_free (id : string) : Prop :=
  Text.free_of Text.is_line_boundary id = true.

(** No character of the id is the newline \n. *)
Definition newline_free (id : string) : Prop :=
  Text.free_of Text.is_lf id = true.

Section Platform.

Context {W : Type} (youtube : Api W).

(** The platform serves the subscription list as the pages [pages], from
    the page that [token] names on, whatever else happens in between: each
    page but the last comes with the token of the next one. *)
Inductive serves (part : string) : option string -> list (list Subscription) -> Prop :=
| serves_last token page next :
    (forall w, fst (subscriptions_list youtube part token w)
               = inr {| items := page; nextPageToken := next |}) ->
    truthy next = false ->
    serves part token [page]
| serves_next token page next rest :
    (forall w, fst (subscriptions_list youtube part token w)
               = inr {| items := page; nextPageToken := next |}) ->
    truthy next = true ->
    serves part next rest ->
    serves part token (page :: rest).

(** Between [s] and [s'] the checkpoint file was not written, and the
    table, the log, the console and the requests only grew. *)
Record extends (s s' : Sys W) : Prop := {
  extends_file : checkpoint_file s' = checkpoint_file s;
  extends_videos : videos s `prefix_of` videos s';
  extends_log : log s `prefix_of` log s';
  extends_stdout : stdout s `prefix_of` stdout s';
  extends_requests : requests s `prefix_of` requests s'
}.

(** Running [m] never writes the checkpoint file nor removes a row, a log
    entry or a request. *)
Definition grows {A} (m : M W A) : Prop := forall s, extends s (snd (m s)).

(** Running [m] enters [process_subscription] for no channel. *)
Definition enters_none {A} (m : M W A) : Prop :=
  forall s, first_searches (requests (snd (m s))) = first_searches (requests s).

End Platform.

Section Anatomy.

Context {W : Type} (youtube : Api W) (order : SetOrder).

(** The ways a run of [fetch_and_store_data] from [s0] can go, with its
    outcome and its last state: the counting pass fails (line 54, outside
    the [try]); the pass over the subscriptions returns and the checkpoint
    is written (lines 73-78); the pass raises and the handler runs (lines
    80-82); or a loop is cut off. *)
Inductive run_shape (fuel : nat) (s0 : Sys W) : Outcome unit -> Sys W -> Prop :=
| run_count_raised e s1 :
    get_total_subscription_count youtube fuel s0 = (Raised e, s1) ->
    run_shape fuel s0 (Raised e) s1
| run_count_cut s1 :
    get_total_subscription_count youtube fuel s0 = (OutOfFuel, s1) ->
    run_shape fuel s0 OutOfFuel s1
| run_completed T s1 C s2 :
    get_total_subscription_count youtube fuel s0 = (Returned T, s1) ->
    fetch_pages youtube fuel fuel None (checkpoint_of (checkpoint_file s0)) s1
    = (Returned C, s2) ->
    run_shape fuel s0 (Returned tt)
      (with_log (log s2 ++ [(INFO, completed_message)])
         (with_checkpoint_file
            (Some (Text.write_lines (iter_set order (reset_when_complete C T))))
            s2))
| run_caught T s1 e s2 :
    get_total_subscription_count youtube fuel s0 = (Returned T, s1) ->
    fetch_pages youtube fuel fuel None (checkpoint_of (checkpoint_file s0)) s1
    = (Raised e, s2) ->
    run_shape fuel s0 (Returned tt)
      (with_stdout (stdout s2 ++ [HttpErrorText (status e) (content e)])
         (with_log (log s2 ++ [(ERROR, HttpErrorText (status e) (content e))]) s2))
| run_pass_cut T s1 s2 :
    get_total_subscription_count youtube fuel s0 = (Returned T, s1) ->
    fetch_pages youtube fuel fuel None (checkpoint_of (checkpoint_file s0)) s1
    = (OutOfFuel, s2) ->
    run_shape fuel s0 OutOfFuel s2.

End Anatomy.

(** ** Observations on videos, rows and files *)

(** The ids of the statistics lookups (line 122) among the requests. *)
Definition lookups (reqs : list Request) : list string :=
  omap (fun r => match r with
                 | ReqVideos id => Some id
                 | _ => None
                 end) reqs.

(** The [publishedAfter] values of the search requests. *)
Definition search_windows (reqs : list Request) : list string :=
  omap (fun r => match r with
                 | ReqSearch _ published_after _ => Some published_after
                 | _ => None
                 end) reqs.

(** The log entries of line 126 for the videos [vs], in their order. *)
Definition saved_entries (vs : list Video) : list (Level * Message) :=
  (fun video => (INFO, saved_message (video_snippet_title video))) <$> vs.

(** A text file with a line for each id, each ended by [term]. *)
Fixpoint lines_with (term : string) (ids : list string) : string :=
  match ids with
  | [] => ""
  | id :: rest => id ++ (term ++ lines_with term rest)
  end.

(** The line ends that a text file can have: \n, \r\n and \r. *)
Definition line_ends : list string :=
  [String Text.LF ""; String Text.CR (String Text.LF ""); String Text.CR ""].

Section VideoPlatform.

Context {W : Type} (youtube : Api W).

(** The platform serves the videos of a channel as the pages [pages], from
    the page that [token] names on, whatever the time window and whatever
    else happens in between. *)
Inductive serves_videos (channel_id : string)
    : option string -> list (list Video) -> Prop :=
| serves_videos_last token page next :
    (forall published_after w,
        fst (search_list youtube channel_id published_after token w)
        = inr {| items := page; nextPageToken := next |}) ->
    truthy next = false ->
    serves_videos channel_id token [page]
| serves_videos_next token page next rest :
    (forall published_after w,
        fst (search_list youtube channel_id published_after token w)
        = inr {| items := page; nextPageToken := next |}) ->
    truthy next = true ->
    serves_videos channel_id next rest ->
    serves_videos channel_id token (page :: rest).

(** No statistics lookup is refused. *)
Definition lookups_answered : Prop :=
  forall id w, exists details, fst (videos_list youtube id w) = inr details.

(** Running [m] removes no row, and the rows it inserts satisfy [Q]. *)
Definition inserts {A} (Q : Row -> Prop) (m : M W A) : Prop :=
  forall s, exists rows, videos (snd (m s)) = (videos s ++ rows)%list /\ Forall Q rows.

End VideoPlatform.

(** ** What a run adds *)

(** The subscriptions that lines 65-67 hand to [process_subscription] when
    the loop starts from the checkpoint [processed]: those whose channel is
    not in it, each channel at its first item. *)
Fixpoint open_items (processed : gset string) (its : list Subscription)
    : list Subscription :=
  match its with
  | [] => []
  | item :: rest =>
      if decide (channelId item ∈ processed) then open_items processed rest
      else item :: open_items ({[channelId item]} ∪ processed) rest
  end.

(** The row of lines 129-134 for a video of the channel titled [ct] and the
    statistics item [st]. *)
Definition row_of (ct : string) (video : Video) (st : Statistics) : Row :=
  {| channel_title := ct;
     video_title := video_snippet_title video;
     views := get (viewCount st) (JInt 0);
     likes := get (likeCount st) (JInt 0);
     comment_count := get (commentCount st) (JInt 0) |}.

(** The rows of a video when its statistics lookup answers [stats id]: one
    row from the first item, none without an item. *)
Definition rows_of_video
    (stats : string -> option (list Statistics)) (ct : string) (video : Video)
    : list Row :=
  match stats (videoId video) with
  | Some (st :: _) => [row_of ct video st]
  | _ => []
  end.

Fixpoint rows_of
    (stats : string -> option (list Statistics)) (ct : string) (vs : list Video)
    : list Row :=
  match vs with
  | [] => []
  | video :: rest => rows_of_video stats ct video ++ rows_of stats ct rest
  end.

(** The videos of the subscriptions [its], when the search for the channel
    [c] gives the pages [channel_videos c]. *)
Fixpoint videos_of_items
    (channel_videos : string -> list (list Video)) (its : list Subscription)
    : list Video :=
  match its with
  | [] => []
  | item :: rest =>
      concat (channel_videos (channelId item))
      ++ videos_of_items channel_videos rest
  end.

(** The rows of these videos, each under the title of its subscription. *)
Fixpoint rows_of_items
    (stats : string -> option (list Statistics))
    (channel_videos : string -> list (list Video)) (its : list Subscription)
    : list Row :=
  match its with
  | [] => []
  | item :: rest =>
      rows_of stats (title item) (concat (channel_videos (channelId item)))
      ++ rows_of_items stats channel_videos rest
  end.

Section Additions.

Context {W : Type}.

(** From [s] to [s'] exactly the rows [rows] and the log entries [entries]
    were added, the statistics of the videos [looked] were looked up,
    [process_subscription] was entered for the channels [entered], and
    neither the checkpoint file nor the console changed. *)
Record adds (s s' : Sys W) (rows : list Row) (entries : list (Level * Message))
    (looked entered : list string) : Prop := {
  adds_videos : videos s' = (videos s ++ rows)%list;
  adds_log : log s' = (log s ++ entries)%list;
  adds_lookups : lookups (requests s') = (lookups (requests s) ++ looked)%list;
  adds_entered :
    first_searches (requests s') = (first_searches (requests s) ++ entered)%list;
  adds_file : checkpoint_file s' = checkpoint_file s;
  adds_stdout : stdout s' = stdout s
}.

End Additions.

(** ** Scripted platforms *)

Module Script.

(** The token of page [i], and back. *)
Definition token_of (i : nat) : option string :=
  match i with
  | O => None
  | _ => Some (String (ascii_of_nat (48 + i)) "")
  end.

Definition page_of (token : option string) : nat :=
  match token with
  | Some (String c _) => nat_of_ascii c - 48
  | _ => 0
  end.

Definition quota_exceeded : HttpError :=
  {| status := 403; content := "quotaExceeded" |}.

Definition not_found : HttpError :=
  {| status := 404; content := "notFound" |}.

(** A platform whose account does not change: the subscriptions come in
    the pages [pages]; [search] gives the videos of a channel on one page,
    or fails; [stats] gives the items of a statistics lookup.  Its state
    counts the requests answered. *)
Definition platform
    (pages : list (list Subscription))
    (search : string -> HttpError + list Video)
    (stats : string -> option (list Statistics)) : Api nat :=
  {| subscriptions_list := fun _ token w =>
       match pages !! page_of token with
       | Some page =>
           (inr {| items := page;
                   nextPageToken :=
                     if decide (S (page_of token) < length pages)
                     then token_of (S (page_of token)) else None |}, S w)
       | None => (inl not_found, S w)
       end;
     search_list := fun channel_id _ _ w =>
       match search channel_id with
       | inl e => (inl e, S w)
       | inr vs => (inr {| items := vs; nextPageToken := None |}, S w)
       end;
     videos_list := fun id w => (inr {| details_items := stats id |}, S w);
     publishedAfter_now := fun _ => "2023-11-04T00:00:00Z" |}.

(** A platform that refuses every request. *)
Definition refusing : Api nat :=
  {| subscriptions_list := fun _ _ w => (inl quota_exceeded, S w);
     search_list := fun _ _ _ w => (inl quota_exceeded, S w);
     videos_list := fun _ w => (inl quota_exceeded, S w);
     publishedAfter_now := fun _ => "2023-11-04T00:00:00Z" |}.

Definition start (file : option string) : Sys nat :=
  {| remote := 0; checkpoint_file := file; videos := []; log := [];
     stdout := []; requests := []; slept := 0 |}.

Definition channel_a : Subscription := {| channelId := "UCa"; title := "A" |}.
Definition channel_b : Subscription := {| channelId := "UCb"; title := "B" |}.
Definition channel_c : Subscription := {| channelId := "UCc"; title := "C" |}.

Definition one_video (channel_id : string) : HttpError + list Video :=
  inr [{| videoId := "v-" ++ channel_id; video_snippet_title := "clip" |}].

Definition b_fails (channel_id : string) : HttpError + list Video :=
  if decide (channel_id = "UCb") then inl quota_exceeded else one_video channel_id.

Definition full_stats (id : string) : option (list Statistics) :=
  Some [{| viewCount := Some (JStr "10"); likeCount := Some (JStr "2");
           commentCount := None |}].

Definition no_stats (id : string) : option (list Statistics) := Some [].

(** An id with the character \x1c (file separator) between U and C. *)
Definition odd_id : string := String "U" (String "028"%char (String "C" "")).

Definition line (id : string) : string := id ++ String Text.LF "".

Definition pages_abc : list (list Subscription) :=
  [[channel_a; channel_b]; [channel_c]].

Definition steady : Api nat := platform pages_abc one_video full_stats.

(** As [steady], but the search for the videos of UCb is refused. *)
Definition flaky : Api nat := platform pages_abc b_fails full_stats.

(** As [steady], but every statistics lookup comes back empty. *)
Definition bare : Api nat := platform pages_abc one_video no_stats.

(** An account with the one subscription UCa. *)
Definition small : Api nat := platform [[channel_a]] one_video full_stats.

(** An account that has UCa, UCb and UCc when the first request arrives,
    and only UCa from then on. *)
Definition shrinking : Api nat :=
  {| subscriptions_list := fun _ _ w =>
       (inr {| items := if decide (w = 0)
                        then [channel_a; channel_b; channel_c]
                        else [channel_a];
               nextPageToken := None |}, S w);
     search_list := fun channel_id _ _ w =>
       match one_video channel_id with
       | inl e => (inl e, S w)
       | inr vs => (inr {| items := vs; nextPageToken := None |}, S w)
       end;
     videos_list := fun id w => (inr {| details_items := full_stats id |}, S w);
     publishedAfter_now := fun _ => "2023-11-04T00:00:00Z" |}.

(** A channel with three videos on two pages; the statistics of the
    second one are missing. *)
Definition video_pages : list (list Video) :=
  [[{| videoId := "v1"; video_snippet_title := "one" |};
    {| videoId := "v2"; video_snippet_title := "two" |}];
   [{| videoId := "v3"; video_snippet_title := "three" |}]].

Definition busy : Api nat :=
  {| subscriptions_list := fun _ _ w =>
       (inr {| items := [channel_a]; nextPageToken := None |}, S w);
     search_list := fun _ _ token w =>
       match video_pages !! page_of token with
       | Some page =>
           (inr {| items := page;
                   nextPageToken :=
                     if decide (S (page_of token) < length video_pages)
                     then token_of (S (page_of token)) else None |}, S w)
       | None => (inl not_found, S w)
       end;
     videos_list := fun id w =>
       (inr {| details_items :=
                 if decide (id = "v2") then Some [] else full_stats id |}, S w);
     publishedAfter_now := fun _ => "2023-11-04T00:00:00Z" |}.

(** A platform that refuses the statistics lookups only. *)
Definition blind : Api nat :=
  {| subscriptions_list := subscriptions_list steady;
     search_list := search_list steady;
     videos_list := fun _ w => (inl quota_exceeded, S w);
     publishedAfter_now := publishedAfter_now steady |}.

Definition clip : Video := {| videoId := "v-UCa"; video_snippet_title := "clip" |}.

End Script.

(** ** Facts about text *)

Module TextFacts.
Import Text.

Lemma append_nil_l (t : string) : "" ++ t = t.
Proof. reflexivity. Qed.

Lemma append_cons (c : ascii) (s t : string) : String c s ++ t = String c (s ++ t).
Proof. reflexivity. Qed.

Lemma append_empty_r (s : string) : s ++ "" = s.
Proof.
  induction s as [|c s IH]; [reflexivity|]. now rewrite append_cons, IH.
Qed.

Lemma append_assoc (a b c : string) : (a ++ b) ++ c = a ++ (b ++ c).
Proof.
  induction a as [|x a IH]; [reflexivity|]. now rewrite !append_cons, IH.
Qed.

Lemma is_cr_boundary (c : ascii) : is_cr c = true -> is_line_boundary c = true.
Proof.
  unfold is_cr, is_line_boundary. intros H. simpl. rewrite H.
  repeat (rewrite ?orb_true_r, ?orb_true_l). reflexivity.
Qed.

Lemma foldl_write_lines (ids : list string) (file : string) :
  foldl (fun file channel_id => file ++ (channel_id ++ String LF "")) file ids
  = file ++ write_lines ids.
Proof.
  revert file. induction ids as [|id ids IH]; intros file; simpl.
  - now rewrite append_empty_r.
  - rewrite IH, !append_assoc, append_cons, append_nil_l. reflexivity.
Qed.

Lemma splitlines_from_line (id line rest : string) :
  free_of is_line_boundary id = true ->
  splitlines_from line (id ++ String LF rest) = (line ++ id) :: splitlines_from "" rest.
Proof.
  revert line. induction id as [|c id IH]; intros line Hfree.
  - rewrite append_nil_l, append_empty_r. reflexivity.
  - simpl in Hfree. apply andb_true_iff in Hfree as [Hc Hid].
    apply negb_true_iff in Hc. rewrite append_cons. simpl.
    rewrite Hc, (IH _ Hid), append_assoc, append_cons, append_nil_l. reflexivity.
Qed.

Lemma splitlines_write_lines (ids : list string) :
  Forall (fun id => free_of is_line_boundary id = true) ids ->
  splitlines (write_lines ids) = ids.
Proof.
  unfold splitlines. induction 1 as [|id ids Hid _ IH]; simpl; [reflexivity|].
  rewrite (splitlines_from_line _ _ _ Hid), IH, append_nil_l. reflexivity.
Qed.

Lemma universal_newlines_no_cr (s : string) :
  free_of is_cr s = true -> universal_newlines s = s.
Proof.
  induction s as [|c s IH]; simpl; [reflexivity|]. intros H.
  apply andb_true_iff in H as [Hc Hs]. apply negb_true_iff in Hc.
  rewrite Hc, (IH Hs). reflexivity.
Qed.

Lemma free_of_append (p : ascii -> bool) (a b : string) :
  free_of p (a ++ b) = free_of p a && free_of p b.
Proof.
  induction a as [|c a IH]; [reflexivity|].
  rewrite append_cons. simpl. now rewrite IH, andb_assoc.
Qed.

Lemma free_of_boundary_cr (s : string) :
  free_of is_line_boundary s = true -> free_of is_cr s = true.
Proof.
  induction s as [|c s IH]; simpl; [reflexivity|]. intros H.
  apply andb_true_iff in H as [Hc Hs]. rewrite (IH Hs), andb_true_r.
  destruct (is_cr c) eqn:E; [|reflexivity].
  now rewrite (is_cr_boundary _ E) in Hc.
Qed.

Lemma write_lines_no_cr (ids : list string) :
  Forall (fun id => free_of is_line_boundary id = true) ids ->
  free_of is_cr (write_lines ids) = true.
Proof.
  induction 1 as [|id ids Hid _ IH]; simpl; [reflexivity|].
  rewrite free_of_append. simpl. rewrite IH, (free_of_boundary_cr _ Hid).
  reflexivity.
Qed.

End TextFacts.

(** ** Facts about the effects *)

Section Effects.

Context {W : Type} (youtube : Api W).

Local Open Scope list_scope.

Lemma extends_refl (s : Sys W) : extends s s.
Proof. split; reflexivity. Qed.

Lemma extends_trans (s1 s2 s3 : Sys W) :
  extends s1 s2 -> extends s2 s3 -> extends s1 s3.
Proof.
  intros [F1 V1 L1 O1 R1] [F2 V2 L2 O2 R2]. split.
  - congruence.
  - now transitivity (videos s2).
  - now transitivity (log s2).
  - now transitivity (stdout s2).
  - now transitivity (requests s2).
Qed.

Lemma grows_ret {A} (a : A) : grows (W:=W) (ret a).
Proof. intros s. apply extends_refl. Qed.

Lemma grows_bind {A B} (m : M W A) (k : A -> M W B) :
  grows m -> (forall a, grows (k a)) -> grows (bind m k).
Proof.
  intros Hm Hk s. unfold bind. specialize (Hm s).
  destruct (m s) as [[a|e|] s1]; simpl in *; try assumption.
  eapply extends_trans; [exact Hm | apply Hk].
Qed.

Lemma grows_out_of_fuel {A} : grows (W:=W) (A:=A) (fun s => (OutOfFuel, s)).
Proof. intros s. apply extends_refl. Qed.

Lemma grows_execute {A} (req : Request) (answer : W -> (HttpError + A) * W) :
  grows (execute req answer).
Proof.
  intros s. unfold execute.
  destruct (answer _) as [[e|a] w]; split; simpl; try reflexivity;
    now apply prefix_app_r.
Qed.

Lemma grows_logging (lvl : Level) (m : Message) : grows (W:=W) (logging lvl m).
Proof. intros s. split; simpl; try reflexivity. now apply prefix_app_r. Qed.

Lemma grows_print (m : Message) : grows (W:=W) (print m).
Proof. intros s. split; simpl; try reflexivity. now apply prefix_app_r. Qed.

Lemma grows_sleep (n : nat) : grows (W:=W) (sleep n).
Proof. intros s. split; reflexivity. Qed.

Lemma grows_save_to_database (ct vt : string) (st : Statistics) :
  grows (W:=W) (save_to_database ct vt st).
Proof. intros s. split; simpl; try reflexivity. now apply prefix_app_r. Qed.

Lemma grows_process_video (ct : string) (video : Video) :
  grows (process_video youtube ct video).
Proof.
  unfold process_video. apply grows_bind; [apply grows_execute|]. intros d.
  apply grows_bind; [|intros _; apply grows_logging].
  destruct (details_items d) as [[|st ?]|];
    auto using grows_ret, grows_save_to_database.
Qed.

Lemma grows_process_videos (ct : string) (vs : list Video) :
  grows (process_videos youtube ct vs).
Proof.
  induction vs as [|v vs IH]; simpl; [apply grows_ret|].
  apply grows_bind; [apply grows_process_video|]. intros _.
  apply grows_bind; [apply grows_sleep|]. intros _. exact IH.
Qed.

Lemma grows_process_subscription_loop
    (fuel : nat) (c t ya : string) (token : option string) :
  grows (process_subscription_loop youtube fuel c t ya token).
Proof.
  revert token. induction fuel as [|fuel IH]; intros token; simpl.
  - apply grows_out_of_fuel.
  - apply grows_bind; [apply grows_execute|]. intros page.
    apply grows_bind; [apply grows_process_videos|]. intros _.
    destruct (truthy _); [|apply grows_ret].
    apply grows_bind; [apply grows_sleep|]. intros _. apply IH.
Qed.

Lemma grows_process_subscription (fuel : nat) (item : Subscription) :
  grows (process_subscription youtube fuel item).
Proof.
  unfold process_subscription. apply grows_bind.
  - intros s. apply extends_refl.
  - intros ya. apply grows_process_subscription_loop.
Qed.

Lemma grows_fetch_items (fuel : nat) (its : list Subscription) (P : gset string) :
  grows (fetch_items youtube fuel its P).
Proof.
  revert P. induction its as [|item its IH]; intros P; simpl; [apply grows_ret|].
  apply grows_bind; [|intros P'; apply IH].
  destruct (decide _); [apply grows_ret|].
  apply grows_bind; [apply grows_process_subscription|]. intros _. apply grows_ret.
Qed.

Lemma grows_fetch_pages
    (fuel n : nat) (token : option string) (P : gset string) :
  grows (fetch_pages youtube fuel n token P).
Proof.
  revert token P. induction n as [|n IH]; intros token P; simpl.
  - apply grows_out_of_fuel.
  - apply grows_bind; [apply grows_execute|]. intros page.
    apply grows_bind; [apply grows_fetch_items|]. intros P'.
    destruct (truthy _); [apply IH | apply grows_ret].
Qed.

Lemma grows_count_loop (fuel count : nat) (token : option string) :
  grows (get_total_subscription_count_loop youtube fuel count token).
Proof.
  revert count token. induction fuel as [|fuel IH]; intros count token; simpl.
  - apply grows_out_of_fuel.
  - apply grows_bind; [apply grows_execute|]. intros page.
    destruct (truthy _); [apply IH | apply grows_ret].
Qed.

End Effects.

(** ** Facts about the channels a run processes *)

Section Traces.

Context {W : Type} (youtube : Api W).

Local Open Scope list_scope.

Lemma to_process_app (P : gset string) (l1 l2 : list string) :
  to_process P (l1 ++ l2)
  = to_process P l1 ++ to_process (P ∪ list_to_set l1) l2.
Proof.
  revert P. induction l1 as [|c l1 IH]; intros P; simpl.
  - f_equal. set_solver.
  - destruct (decide (c ∈ P)) as [Hin|Hout]; rewrite IH; simpl.
    + do 2 f_equal. set_solver.
    + do 3 f_equal. set_solver.
Qed.

Lemma elem_of_to_process (P : gset string) (l : list string) (c : string) :
  c ∈ to_process P l <-> c ∈ l /\ c ∉ P.
Proof.
  revert P. induction l as [|d l IH]; intros P; simpl.
  - set_solver.
  - destruct (decide (d ∈ P)) as [Hin|Hout].
    + rewrite IH. set_solver.
    + rewrite elem_of_cons, IH. destruct (decide (c = d)); set_solver.
Qed.

Lemma NoDup_to_process (P : gset string) (l : list string) :
  NoDup (to_process P l).
Proof.
  revert P. induction l as [|d l IH]; intros P; simpl.
  - constructor.
  - destruct (decide (d ∈ P)); [apply IH|].
    constructor; [|apply IH]. rewrite elem_of_to_process. set_solver.
Qed.

Lemma NoDup_prefix {A} (l k : list A) : l `prefix_of` k -> NoDup k -> NoDup l.
Proof. intros [t ->] H. apply NoDup_app in H. tauto. Qed.

Lemma execute_requests {A} (req : Request) (answer : W -> (HttpError + A) * W)
    (s : Sys W) :
  requests (snd (execute req answer s)) = requests s ++ [req].
Proof. unfold execute. now destruct (answer _) as [[e|a] w]. Qed.

Lemma execute_returned {A} (req : Request) (answer : W -> (HttpError + A) * W)
    (s s' : Sys W) (a : A) :
  execute req answer s = (Returned a, s') -> fst (answer (remote s)) = inr a.
Proof.
  unfold execute. simpl. destruct (answer (remote s)) as [[e|a'] w]; simpl; congruence.
Qed.

Lemma execute_out_of_fuel {A} (req : Request) (answer : W -> (HttpError + A) * W)
    (s s' : Sys W) :
  execute req answer s <> (OutOfFuel, s').
Proof. unfold execute. now destruct (answer _) as [[e|a] w]. Qed.

Lemma enters_none_ret {A} (a : A) : enters_none (W:=W) (ret a).
Proof. now intros s. Qed.

Lemma enters_none_bind {A B} (m : M W A) (k : A -> M W B) :
  enters_none m -> (forall a, enters_none (k a)) -> enters_none (bind m k).
Proof.
  intros Hm Hk s. unfold bind. specialize (Hm s).
  destruct (m s) as [[a|e|] s1]; simpl in *; try assumption.
  now rewrite Hk.
Qed.

Lemma enters_none_process_video (ct : string) (video : Video) :
  enters_none (process_video youtube ct video).
Proof.
  unfold process_video. apply enters_none_bind.
  - intros s. rewrite execute_requests. unfold first_searches.
    rewrite omap_app. simpl. now rewrite app_nil_r.
  - intros d. apply enters_none_bind; [|now intros _ s].
    destruct (details_items d) as [[|st ?]|]; now intros s.
Qed.

Lemma enters_none_process_videos (ct : string) (vs : list Video) :
  enters_none (process_videos youtube ct vs).
Proof.
  induction vs as [|v vs IH]; simpl; [apply enters_none_ret|].
  apply enters_none_bind; [apply enters_none_process_video|]. intros _.
  apply enters_none_bind; [now intros s | intros _; exact IH].
Qed.

Lemma truthy_some (token : option string) :
  truthy token = true -> exists c t, token = Some (String c t).
Proof. destruct token as [[|c t]|]; simpl; try discriminate. eauto. Qed.

(** The search loop of a channel sends the request without a token once,
    as its first request. *)
Lemma process_subscription_loop_searches
    (fuel : nat) (c t ya : string) (token : option string) (s : Sys W) :
  first_searches
    (requests (snd (process_subscription_loop youtube fuel c t ya token s)))
  = first_searches (requests s)
    ++ match fuel, token with
       | S _, None => [c]
       | _, _ => []
       end.
Proof.
  revert token s. induction fuel as [|fuel IH]; intros token s; simpl.
  - now rewrite app_nil_r.
  - unfold bind at 1.
    pose proof (execute_requests (ReqSearch c ya token)
                  (search_list youtube c ya token) s) as Hreq.
    destruct (execute _ _ s) as [[page|e|] s1]; simpl in Hreq.
    + assert (Hs1 : first_searches (requests s1)
                    = first_searches (requests s)
                      ++ match token with None => [c] | Some _ => [] end).
      { rewrite Hreq. unfold first_searches. rewrite omap_app. simpl.
        now destruct token. }
      rewrite <- Hs1. clear Hs1 Hreq.
      unfold bind.
      pose proof (enters_none_process_videos t (items page) s1) as Hv.
      destruct (process_videos _ _ _ s1) as [[[]|e|] s2]; simpl in Hv;
        try assumption.
      destruct (truthy (nextPageToken page)) eqn:Htok; [|assumption].
      apply truthy_some in Htok as (x & y & ->). simpl.
      rewrite IH. simpl. destruct fuel; now rewrite app_nil_r.
    + simpl. rewrite Hreq. unfold first_searches. rewrite omap_app. simpl.
      now destruct token.
    + simpl. rewrite Hreq. unfold first_searches. rewrite omap_app. simpl.
      now destruct token.
Qed.

Lemma process_subscription_searches (fuel : nat) (item : Subscription) (s : Sys W) :
  first_searches (requests (snd (process_subscription youtube fuel item s)))
  = first_searches (requests s)
    ++ match fuel with
       | S _ => [channelId item]
       | O => []
       end.
Proof.
  unfold process_subscription, bind. rewrite process_subscription_loop_searches.
  now destruct fuel.
Qed.

Lemma process_subscription_returned
    (fuel : nat) (item : Subscription) (s s' : Sys W) (u : unit) :
  process_subscription youtube fuel item s = (Returned u, s') -> fuel <> 0.
Proof. intros H ->. discriminate H. Qed.

(** The [for] loop of lines 63-67: what it enters, and the set it leaves. *)
Lemma fetch_items_run
    (fuel : nat) (its : list Subscription) (P : gset string)
    (s s' : Sys W) (r : Outcome (gset string)) :
  fetch_items youtube fuel its P s = (r, s') ->
  exists entered,
    first_searches (requests s') = first_searches (requests s) ++ entered
    /\ entered `prefix_of` to_process P (channelId <$> its)
    /\ forall P', r = Returned P' ->
         entered = to_process P (channelId <$> its)
         /\ P' = P ∪ list_to_set (channelId <$> its).
Proof.
  revert P s. induction its as [|item its IH]; intros P s; simpl.
  - intros [= <- <-]. exists []. rewrite app_nil_r.
    split; [reflexivity|]. split; [reflexivity|].
    intros P' [= <-]. split; [reflexivity | set_solver].
  - unfold bind at 1. destruct (decide (channelId item ∈ P)) as [Hin|Hout].
    + simpl. intros Hrest. destruct (IH _ _ Hrest) as (entered & Hreq & Hpre & Hret).
      exists entered. split; [assumption|]. split; [assumption|].
      intros P' HP'. destruct (Hret _ HP') as [-> ->].
      split; [reflexivity | set_solver].
    + unfold bind at 1.
      pose proof (process_subscription_searches fuel item s) as Hps.
      destruct (process_subscription youtube fuel item s) as [[u|e|] s1] eqn:E;
        simpl in Hps.
      * apply process_subscription_returned in E.
        destruct fuel as [|fuel]; [congruence|]. simpl.
        intros Hrest. destruct (IH _ _ Hrest) as (entered & Hreq & Hpre & Hret).
        exists (channelId item :: entered). split; [|split].
        -- rewrite Hreq, Hps, <- app_assoc. reflexivity.
        -- now apply prefix_cons.
        -- intros P' HP'. destruct (Hret _ HP') as [-> ->].
           split; [reflexivity | set_solver].
      * intros [= <- <-]. eexists. split; [exact Hps|]. split; [|discriminate].
        destruct fuel; [apply prefix_nil | apply prefix_cons, prefix_nil].
      * intros [= <- <-]. eexists. split; [exact Hps|]. split; [|discriminate].
        destruct fuel; [apply prefix_nil | apply prefix_cons, prefix_nil].
Qed.

Lemma serves_head (part : string) (token : option string)
    (pages : list (list Subscription)) (page : Page Subscription) (w : W) :
  serves youtube part token pages ->
  fst (subscriptions_list youtube part token w) = inr page ->
  exists rest,
    pages = items page :: rest
    /\ if truthy (nextPageToken page)
       then serves youtube part (nextPageToken page) rest
       else rest = [].
Proof.
  intros Hserves Hpage.
  inversion Hserves as [tk pg next Hans Hnext | tk pg next rest Hans Hnext Hrest];
    subst; specialize (Hans w); rewrite Hpage in Hans;
    injection Hans as ->; simpl; rewrite Hnext; eauto.
Qed.

(** The [while] loop of lines 57-71: the items it walked, what it entered
    for them, and the set it leaves. *)
Lemma fetch_pages_run
    (fuel n : nat) (token : option string) (P : gset string)
    (s s' : Sys W) (r : Outcome (gset string)) :
  fetch_pages youtube fuel n token P s = (r, s') ->
  exists walked entered,
    first_searches (requests s') = first_searches (requests s) ++ entered
    /\ entered `prefix_of` to_process P (channelId <$> walked)
    /\ (forall P', r = Returned P' ->
          entered = to_process P (channelId <$> walked)
          /\ P' = P ∪ list_to_set (channelId <$> walked))
    /\ forall pages, serves youtube "snippet" token pages ->
          walked `prefix_of` concat pages
          /\ forall P', r = Returned P' -> walked = concat pages.
Proof.
  revert token P s. induction n as [|n IH]; intros token P s; simpl.
  - intros [= <- <-]. exists [], []. rewrite app_nil_r.
    repeat split; try discriminate; apply prefix_nil.
  - unfold bind at 1.
    pose proof (execute_requests (ReqSubscriptions "snippet" token)
                  (subscriptions_list youtube "snippet" token) s) as Hreq.
    destruct (execute _ _ s) as [[page|e|] s1] eqn:E; simpl in Hreq.
    + apply execute_returned in E.
      assert (Hs1 : first_searches (requests s1) = first_searches (requests s)).
      { rewrite Hreq. unfold first_searches. rewrite omap_app. simpl.
        apply app_nil_r. }
      unfold bind at 1.
      destruct (fetch_items youtube fuel (items page) P s1) as [[P1|e|] s2] eqn:E2;
        destruct (fetch_items_run _ _ _ _ _ _ E2) as (ent1 & Hreq1 & Hpre1 & Hret1).
      * destruct (Hret1 _ eq_refl) as [-> ->].
        destruct (truthy (nextPageToken page)) eqn:Htok.
        -- intros Hrest.
           destruct (IH _ _ _ Hrest) as (walked & ent2 & Hreq2 & Hpre2 & Hret2 & Hsrv2).
           exists (items page ++ walked), (to_process P (channelId <$> items page) ++ ent2).
           rewrite fmap_app, to_process_app. split; [|split; [|split]].
           ++ rewrite Hreq2, Hreq1, Hs1, <- app_assoc. reflexivity.
           ++ now apply prefix_app.
           ++ intros P' HP'. destruct (Hret2 _ HP') as [-> ->].
              split; [reflexivity|]. rewrite list_to_set_app_L. set_solver.
           ++ intros pages Hserves.
              destruct (serves_head _ _ _ _ _ Hserves E) as (rest & -> & Hrest').
              rewrite Htok in Hrest'. destruct (Hsrv2 _ Hrest') as [Hw Hall].
              simpl. split; [now apply prefix_app|].
              intros P' HP'. now rewrite (Hall _ HP').
        -- intros [= <- <-]. exists (items page), (to_process P (channelId <$> items page)).
           split; [|split; [|split]].
           ++ rewrite Hreq1, Hs1. reflexivity.
           ++ reflexivity.
           ++ intros P' [= <-]. now split.
           ++ intros pages Hserves.
              destruct (serves_head _ _ _ _ _ Hserves E) as (rest & -> & Hrest').
              rewrite Htok in Hrest'. subst rest. simpl. rewrite app_nil_r.
              now split.
      * intros [= <- <-]. exists (items page), ent1. split; [|split; [|split]].
        -- rewrite Hreq1, Hs1. reflexivity.
        -- assumption.
        -- discriminate.
        -- intros pages Hserves.
           destruct (serves_head _ _ _ _ _ Hserves E) as (rest & -> & _).
           simpl. split; [now apply prefix_app_r | discriminate].
      * intros [= <- <-]. exists (items page), ent1. split; [|split; [|split]].
        -- rewrite Hreq1, Hs1. reflexivity.
        -- assumption.
        -- discriminate.
        -- intros pages Hserves.
           destruct (serves_head _ _ _ _ _ Hserves E) as (rest & -> & _).
           simpl. split; [now apply prefix_app_r | discriminate].
    + intros [= <- <-]. exists [], []. split; [|split; [|split]].
      * rewrite Hreq. unfold first_searches. rewrite omap_app. reflexivity.
      * apply prefix_nil.
      * discriminate.
      * intros pages _. split; [apply prefix_nil | discriminate].
    + now apply execute_out_of_fuel in E.
Qed.

(** The counting loop over served pages ends, with the number of items. *)
Lemma count_loop_serves
    (pages : list (list Subscription)) (token : option string) :
  serves youtube "id" token pages ->
  forall (fuel count : nat) (s : Sys W),
    length pages <= fuel ->
    exists s',
      get_total_subscription_count_loop youtube fuel count token s
      = (Returned (count + length (concat pages)), s').
Proof.
  induction 1 as [token page next Hans Hnext | token page next rest Hans Hnext _ IH];
    intros fuel count s Hfuel;
    (destruct fuel as [|fuel]; [simpl in Hfuel; lia|]);
    simpl; unfold bind, execute; simpl;
    specialize (Hans (remote s));
    destruct (subscriptions_list youtube "id" token (remote s)) as [[e|pg] w];
    simpl in Hans; try discriminate; injection Hans as ->; simpl; rewrite Hnext.
  - rewrite app_nil_r. eauto.
  - simpl in Hfuel. destruct (IH fuel (count + length page) (with_remote w
      (with_requests (requests s ++ [ReqSubscriptions "id" token]) s)))
      as [s' Hs']; [lia|].
    rewrite Hs', length_app, Nat.add_assoc. eauto.
Qed.

End Traces.

(** ** Facts about a whole run *)

Section Runs.

Context {W : Type} (youtube : Api W) (order : SetOrder).

Local Open Scope list_scope.

Lemma load_processed_channels_eq (s : Sys W) :
  load_processed_channels s = (Returned (checkpoint_of (checkpoint_file s)), s).
Proof.
  unfold load_processed_channels, checkpoint_of. now destruct (checkpoint_file s).
Qed.

Lemma save_processed_channels_eq (P : gset string) (s : Sys W) :
  save_processed_channels order P s
  = (Returned tt,
     with_checkpoint_file (Some (Text.write_lines (iter_set order P))) s).
Proof.
  unfold save_processed_channels.
  now rewrite TextFacts.foldl_write_lines, TextFacts.append_nil_l.
Qed.

(** Every run has one of the shapes of [run_shape]. *)
Lemma fetch_and_store_data_shape
    (fuel : nat) (s0 s' : Sys W) (r : Outcome unit) :
  fetch_and_store_data youtube order fuel s0 = (r, s') ->
  run_shape youtube order fuel s0 r s'.
Proof.
  unfold fetch_and_store_data. unfold bind at 1.
  rewrite load_processed_channels_eq. unfold bind at 1.
  destruct (get_total_subscription_count youtube fuel s0) as [[T|e|] s1] eqn:Ecount.
  - unfold try_except. unfold bind at 1.
    destruct (fetch_pages youtube fuel fuel None _ s1) as [[C|e|] s2] eqn:Epass.
    + unfold bind. rewrite save_processed_channels_eq. simpl.
      intros [= <- <-]. eapply run_completed; eassumption.
    + simpl. intros [= <- <-]. eapply run_caught; eassumption.
    + intros [= <- <-]. eapply run_pass_cut; eassumption.
  - intros [= <- <-]. now constructor.
  - intros [= <- <-]. now constructor.
Qed.

Lemma enters_none_count_loop (fuel count : nat) (token : option string) :
  enters_none (get_total_subscription_count_loop youtube fuel count token).
Proof.
  revert count token. induction fuel as [|fuel IH]; intros count token; simpl.
  - now intros s.
  - apply enters_none_bind.
    + intros s. rewrite execute_requests. unfold first_searches.
      rewrite omap_app. simpl. now rewrite app_nil_r.
    + intros page. destruct (truthy _); [apply IH | apply enters_none_ret].
Qed.

(** What a run enters: channels that the checkpoint file does not hold,
    each once. *)
Lemma run_entered (fuel : nat) (s0 s' : Sys W) (r : Outcome unit) :
  run_shape youtube order fuel s0 r s' ->
  exists entered,
    first_searches (requests s') = first_searches (requests s0) ++ entered
    /\ NoDup entered
    /\ forall c, c ∈ entered -> c ∉ checkpoint_of (checkpoint_file s0).
Proof.
  assert (Hcount : forall r1 s1,
    get_total_subscription_count youtube fuel s0 = (r1, s1) ->
    first_searches (requests s1) = first_searches (requests s0)).
  { intros r1 s1 H. pose proof (enters_none_count_loop fuel 0 None s0) as E.
    unfold get_total_subscription_count in H. now rewrite H in E. }
  assert (Hpass : forall r2 s1 s2,
    first_searches (requests s1) = first_searches (requests s0) ->
    fetch_pages youtube fuel fuel None (checkpoint_of (checkpoint_file s0)) s1
    = (r2, s2) ->
    exists entered,
      first_searches (requests s2) = first_searches (requests s0) ++ entered
      /\ NoDup entered
      /\ forall c, c ∈ entered -> c ∉ checkpoint_of (checkpoint_file s0)).
  { intros r2 s1 s2 H1 H.
    destruct (fetch_pages_run _ _ _ _ _ _ _ _ H)
      as (walked & entered & Hreq & Hpre & _).
    exists entered. rewrite Hreq, H1. split; [reflexivity|]. split.
    - eapply NoDup_prefix; [exact Hpre | apply NoDup_to_process].
    - intros c Hc. destruct Hpre as [k Hk].
      assert (Hin : c ∈ to_process (checkpoint_of (checkpoint_file s0))
                          (channelId <$> walked))
        by (rewrite Hk; set_solver).
      now apply elem_of_to_process in Hin. }
  intros [e s1 H | s1 H | T s1 C s2 H1 H2 | T s1 e s2 H1 H2 | T s1 s2 H1 H2].
  - exists []. rewrite app_nil_r, (Hcount _ _ H).
    split; [reflexivity|]. split; [constructor | set_solver].
  - exists []. rewrite app_nil_r, (Hcount _ _ H).
    split; [reflexivity|]. split; [constructor | set_solver].
  - exact (Hpass _ _ _ (Hcount _ _ H1) H2).
  - exact (Hpass _ _ _ (Hcount _ _ H1) H2).
  - exact (Hpass _ _ _ (Hcount _ _ H1) H2).
Qed.

End Runs.

(** ** The checkpoint file *)

Section Persistence.

Context {W : Type} (order : SetOrder).

Local Open Scope list_scope.

Lemma iter_set_empty : iter_set order ∅ = [].
Proof.
  apply Permutation_nil_r. rewrite (iter_set_perm order ∅).
  now rewrite elements_empty.
Qed.

Lemma iter_set_elem (S : gset string) (c : string) : c ∈ iter_set order S <-> c ∈ S.
Proof. rewrite (iter_set_perm order S). apply elem_of_elements. Qed.

Lemma list_to_set_iter_set (S : gset string) : list_to_set (iter_set order S) = S.
Proof. rewrite (iter_set_perm order S). apply list_to_set_elements_L. Qed.

(** C9 (as amended). For every finite set [S] of ids none of which holds a
    line boundary of [str.splitlines] (\n, \r, \v, \f, \x1c, \x1d, \x1e,
    \x85), [load_processed_channels] right after
    [save_processed_channels S] returns exactly [S], whatever order the set
    is written in; the file is rewritten in full, so what it held before
    plays no part. *)
Theorem save_then_load (S : gset string) (s : Sys W) :
  (forall c, c ∈ S -> line_free c) ->
  exists s',
    save_processed_channels order S s = (Returned tt, s')
    /\ checkpoint_file s' = Some (Text.write_lines (iter_set order S))
    /\ load_processed_channels s' = (Returned S, s').
Proof.
  intros Hfree. eexists. split; [apply save_processed_channels_eq|].
  split; [reflexivity|].
  rewrite load_processed_channels_eq. simpl. f_equal. f_equal.
  assert (Hall : Forall (fun id => Text.free_of Text.is_line_boundary id = true)
                   (iter_set order S)).
  { apply Forall_forall. intros c Hc. apply Hfree. now apply iter_set_elem. }
  rewrite (TextFacts.universal_newlines_no_cr _ (TextFacts.write_lines_no_cr _ Hall)).
  rewrite (TextFacts.splitlines_write_lines _ Hall).
  apply list_to_set_iter_set.
Qed.

(** Without a checkpoint file the load returns the empty set, and nothing
    else happens. *)
Lemma load_without_file (s : Sys W) :
  checkpoint_file s = None -> load_processed_channels s = (Returned ∅, s).
Proof. intros H. rewrite load_processed_channels_eq, H. reflexivity. Qed.

End Persistence.

(** ** The claims about a run *)

Section Claims.

Context {W : Type} (youtube : Api W) (order : SetOrder).

Local Open Scope list_scope.

(** C1. When the counting pass at the start of the run returned [T] (at
    [s0], before any channel is processed), the pass over the subscriptions
    returned with the checkpoint set [C], and [T <= |C|], then the run
    returns, the checkpoint file it leaves is empty, the next load gives
    the empty set, and nothing is requested after the pass: the count is
    not taken again. *)
Theorem full_checkpoint_is_reset
    (fuel T : nat) (s0 s1 s2 : Sys W) (C : gset string) :
  get_total_subscription_count youtube fuel s0 = (Returned T, s1) ->
  fetch_pages youtube fuel fuel None (checkpoint_of (checkpoint_file s0)) s1
  = (Returned C, s2) ->
  T <= size C ->
  exists s',
    fetch_and_store_data youtube order fuel s0 = (Returned tt, s')
    /\ checkpoint_file s' = Some ""
    /\ load_processed_channels s' = (Returned ∅, s')
    /\ requests s' = requests s2.
Proof.
  intros Hcount Hpass Hfull.
  destruct (fetch_and_store_data youtube order fuel s0) as [r s'] eqn:E.
  apply fetch_and_store_data_shape in E.
  destruct E as [e s3 H | s3 H | T' s3 C' s4 H1 H2 | T' s3 e s4 H1 H2 | T' s3 s4 H1 H2];
    try congruence.
  rewrite Hcount in H1. injection H1 as <- <-.
  rewrite Hpass in H2. injection H2 as <- <-.
  eexists. split; [reflexivity|].
  unfold reset_when_complete. destruct (decide (T <= size C)); [|lia].
  rewrite iter_set_empty. simpl. repeat split.
Qed.

(** C5. When the counting pass returned and an [HttpError] is raised in the
    pass over the subscriptions, the run still returns; the error is logged
    and printed; nothing is requested after it; the checkpoint file is as
    before the run; the rows inserted before the error are in the table. *)
Theorem http_error_in_pass
    (fuel T : nat) (s0 s1 s2 : Sys W) (e : HttpError) :
  get_total_subscription_count youtube fuel s0 = (Returned T, s1) ->
  fetch_pages youtube fuel fuel None (checkpoint_of (checkpoint_file s0)) s1
  = (Raised e, s2) ->
  exists s',
    fetch_and_store_data youtube order fuel s0 = (Returned tt, s')
    /\ checkpoint_file s' = checkpoint_file s0
    /\ videos s' = videos s2
    /\ videos s0 `prefix_of` videos s'
    /\ log s' = log s2 ++ [(ERROR, HttpErrorText (status e) (content e))]
    /\ stdout s' = stdout s2 ++ [HttpErrorText (status e) (content e)]
    /\ requests s' = requests s2.
Proof.
  intros Hcount Hpass.
  destruct (fetch_and_store_data youtube order fuel s0) as [r s'] eqn:E.
  apply fetch_and_store_data_shape in E.
  destruct E as [e' s3 H | s3 H | T' s3 C' s4 H1 H2 | T' s3 e' s4 H1 H2 | T' s3 s4 H1 H2];
    try congruence.
  rewrite Hcount in H1. injection H1 as <- <-.
  rewrite Hpass in H2. injection H2 as <- <-.
  pose proof (grows_count_loop youtube fuel 0 None s0) as G1.
  unfold get_total_subscription_count in Hcount. rewrite Hcount in G1.
  pose proof (grows_fetch_pages youtube fuel fuel None
                (checkpoint_of (checkpoint_file s0)) s1) as G2.
  rewrite Hpass in G2. simpl in G1, G2.
  destruct (extends_trans _ _ _ G1 G2) as [F V _ _ _].
  eexists. split; [reflexivity|]. simpl. repeat split; assumption.
Qed.

(** C3. An item whose channel id is in the checkpoint set when the loop
    reaches it is passed over: no search, no statistics lookup, no insert,
    and the set stays as it is.  And in a whole run, however it ends,
    [process_subscription] is entered at most once for a channel, and not
    at all for a channel that the checkpoint file held. *)
Theorem processed_channel_is_skipped
    (fuel : nat) (item : Subscription) (rest : list Subscription)
    (P : gset string) (s s0 : Sys W) :
  channelId item ∈ P ->
  fetch_items youtube fuel (item :: rest) P s = fetch_items youtube fuel rest P s
  /\ exists entered,
       first_searches (requests (snd (fetch_and_store_data youtube order fuel s0)))
       = first_searches (requests s0) ++ entered
       /\ NoDup entered
       /\ forall c, c ∈ entered -> c ∉ checkpoint_of (checkpoint_file s0).
Proof.
  intros Hin. split.
  - simpl. unfold bind at 1. destruct (decide (channelId item ∈ P)); [|contradiction].
    reflexivity.
  - destruct (fetch_and_store_data youtube order fuel s0) as [r s'] eqn:E.
    apply fetch_and_store_data_shape in E. exact (run_entered _ _ _ _ _ _ E).
Qed.

(** C8 (as amended). Up to the reset check, the set only grows: each item
    loop and the whole pass return a set that includes the one they
    started from; when the platform serves the subscriptions as [pages],
    the set at the check is the loaded set together with the ids of the
    subscriptions; and the check leaves it as it is or empties it. *)
Theorem checkpoint_only_grows
    (fuel n : nat) (token : option string) (P C : gset string) (s s' : Sys W) :
  fetch_pages youtube fuel n token P s = (Returned C, s') ->
  P ⊆ C
  /\ (forall pages, serves youtube "snippet" token pages ->
        C = P ∪ list_to_set (channelId <$> concat pages))
  /\ (forall its P0 P1 s0 s1,
        fetch_items youtube fuel its P0 s0 = (Returned P1, s1) -> P0 ⊆ P1)
  /\ forall T, reset_when_complete C T = C \/ reset_when_complete C T = ∅.
Proof.
  intros Hpass.
  destruct (fetch_pages_run _ _ _ _ _ _ _ _ Hpass)
    as (walked & entered & _ & _ & Hret & Hsrv).
  destruct (Hret _ eq_refl) as [_ HC]. split; [set_solver|]. split; [|split].
  - intros pages Hpages. destruct (Hsrv _ Hpages) as [_ Hall].
    now rewrite <- (Hall _ eq_refl).
  - intros its P0 P1 s0 s1 H.
    destruct (fetch_items_run _ _ _ _ _ _ _ H) as (ent & _ & _ & Hr).
    destruct (Hr _ eq_refl) as [_ ->]. set_solver.
  - intros T. unfold reset_when_complete. destruct (decide _); auto.
Qed.

End Claims.

(** ** Pagination *)

Section Pagination.

Context {W : Type} (youtube : Api W).

Local Open Scope list_scope.

Lemma to_process_all (P : gset string) (ids : list string) :
  NoDup ids -> (forall c, c ∈ ids -> c ∉ P) -> to_process P ids = ids.
Proof.
  revert P. induction ids as [|c ids IH]; intros P Hnd Hout; simpl; [reflexivity|].
  apply NoDup_cons in Hnd as [Hc Hnd].
  destruct (decide (c ∈ P)) as [Hin|_]; [exfalso; apply (Hout c); set_solver|].
  f_equal. apply IH; [assumption|].
  intros d Hd. specialize (Hout d). set_solver.
Qed.

Lemma fetch_items_returns (inner : nat) (its : list Subscription) :
  (forall item s, exists s',
      process_subscription youtube inner item s = (Returned tt, s')) ->
  forall P s, exists C s', fetch_items youtube inner its P s = (Returned C, s').
Proof.
  intros Hps. induction its as [|item its IH]; intros P s; simpl.
  - now exists P, s.
  - unfold bind at 1. destruct (decide (channelId item ∈ P)).
    + apply IH.
    + unfold bind at 1. destruct (Hps item s) as [s1 ->]. simpl. apply IH.
Qed.

Lemma fetch_pages_returns
    (inner : nat) (pages : list (list Subscription)) (token : option string) :
  (forall item s, exists s',
      process_subscription youtube inner item s = (Returned tt, s')) ->
  serves youtube "snippet" token pages ->
  forall n P s,
    length pages <= n ->
    exists C s', fetch_pages youtube inner n token P s = (Returned C, s').
Proof.
  intros Hps.
  induction 1 as [token page next Hans Hnext | token page next rest Hans Hnext _ IH];
    intros n P s Hn;
    (destruct n as [|n]; [simpl in Hn; lia|]);
    simpl; unfold bind at 1, execute; simpl;
    specialize (Hans (remote s));
    destruct (subscriptions_list youtube "snippet" token (remote s)) as [[e|pg] w];
    simpl in Hans; try discriminate; injection Hans as ->; simpl;
    unfold bind at 1;
    match goal with
    | |- context [fetch_items youtube inner page P ?s1] =>
        destruct (fetch_items_returns inner page Hps P s1) as (C1 & s2 & ->)
    end; rewrite Hnext.
  - now exists C1, s2.
  - apply IH. simpl in Hn. lia.
Qed.

(** C2. When the platform serves the [N] subscriptions as the pages
    [pages], however the boundaries fall, and the loops may make as many
    rounds as there are pages: [get_total_subscription_count] returns [N];
    the pass over the subscriptions, when it returns, has entered
    [process_subscription] for the ids of all [N] items in their order,
    leaving out only those already in the checkpoint set or met before, and
    the set then holds all of them; with [N] distinct ids of which the
    checkpoint holds none these are all [N] items, each once; and the pass
    does return when every call of [process_subscription] does. *)
Theorem pagination_visits_every_item
    (pages : list (list Subscription)) (fuel : nat) :
  serves youtube "id" None pages ->
  serves youtube "snippet" None pages ->
  length pages <= fuel ->
  (forall s, exists s',
      get_total_subscription_count youtube fuel s
      = (Returned (length (concat pages)), s'))
  /\ (forall inner P s C s',
        fetch_pages youtube inner fuel None P s = (Returned C, s') ->
        first_searches (requests s')
        = first_searches (requests s) ++ to_process P (channelId <$> concat pages)
        /\ C = P ∪ list_to_set (channelId <$> concat pages)
        /\ (NoDup (channelId <$> concat pages) ->
            (forall c, c ∈ channelId <$> concat pages -> c ∉ P) ->
            first_searches (requests s')
            = first_searches (requests s) ++ (channelId <$> concat pages)))
  /\ forall inner,
       (forall item s, exists s',
           process_subscription youtube inner item s = (Returned tt, s')) ->
       forall P s, exists C s',
         fetch_pages youtube inner fuel None P s = (Returned C, s').
Proof.
  intros Hid Hsnippet Hfuel. split; [|split].
  - intros s. exact (count_loop_serves youtube pages None Hid fuel 0 s Hfuel).
  - intros inner P s C s' Hpass.
    destruct (fetch_pages_run _ _ _ _ _ _ _ _ Hpass)
      as (walked & entered & Hreq & _ & Hret & Hsrv).
    destruct (Hret _ eq_refl) as [-> ->].
    destruct (Hsrv _ Hsnippet) as [_ Hall]. rewrite (Hall _ eq_refl) in *.
    split; [assumption|]. split; [reflexivity|].
    intros Hnd Hout. now rewrite Hreq, to_process_all.
  - intros inner Hps P s.
    exact (fetch_pages_returns inner pages None Hps Hsnippet fuel P s Hfuel).
Qed.

(** C4. When the statistics lookup of a video answers without the key
    [items] or with an empty list, [process_video] returns, inserts no row,
    and logs the video as saved. *)
Theorem video_without_statistics
    (channel_title : string) (video : Video) (s : Sys W)
    (details : VideoDetails) (w : W) :
  videos_list youtube (videoId video) (remote s) = (inr details, w) ->
  details_items details = None \/ details_items details = Some [] ->
  exists s',
    process_video youtube channel_title video s = (Returned tt, s')
    /\ videos s' = videos s
    /\ log s' = log s ++ [(INFO, saved_message (video_snippet_title video))].
Proof.
  intros Hans Hnone. unfold process_video, bind, execute. simpl. rewrite Hans.
  destruct Hnone as [-> | ->]; simpl; eexists; repeat split.
Qed.

(** C7. The row that [save_to_database] inserts holds, in each of [views],
    [likes] and [comment_count], the field of the statistics payload when
    the payload has it, and 0 when it has not. *)
Theorem counters_default_to_zero
    (channel_title video_title : string) (statistics : Statistics) (s : Sys W) :
  exists row,
    save_to_database channel_title video_title statistics s
    = (Returned tt, with_videos (videos s ++ [row]) s)
    /\ views row = match viewCount statistics with
                   | Some v => v
                   | None => JInt 0
                   end
    /\ likes row = match likeCount statistics with
                   | Some v => v
                   | None => JInt 0
                   end
    /\ comment_count row = match commentCount statistics with
                           | Some v => v
                           | None => JInt 0
                           end.
Proof. eexists. split; [reflexivity|]. repeat split. Qed.

End Pagination.

(** ** Runs on the scripted platforms *)

Local Open Scope list_scope.

Lemma platform_serves
    (search : string -> HttpError + list Video)
    (stats : string -> option (list Statistics)) (part : string) :
  serves (Script.platform Script.pages_abc search stats) part None Script.pages_abc.
Proof.
  eapply serves_next with (next := Script.token_of 1);
    [intros w; reflexivity | reflexivity |].
  eapply serves_last with (next := None); [intros w; reflexivity | reflexivity].
Qed.

Lemma small_serves (part : string) :
  serves Script.small part None [[Script.channel_a]].
Proof.
  eapply serves_last with (next := None); [intros w; reflexivity | reflexivity].
Qed.

Lemma steady_process_subscription (item : Subscription) (s : Sys nat) :
  exists s', process_subscription Script.steady 5 item s = (Returned tt, s').
Proof. eexists. reflexivity. Qed.

(** A first run over three subscriptions on two pages: the count is 3, the
    three channels are processed, and the checkpoint file is left empty. *)
Lemma full_checkpoint_is_reset_witness :
  exists s',
    fetch_and_store_data Script.steady elements_order 5 (Script.start None)
    = (Returned tt, s')
    /\ checkpoint_file s' = Some ""
    /\ load_processed_channels s' = (Returned ∅, s')
    /\ length (videos s') = 3.
Proof.
  destruct (full_checkpoint_is_reset Script.steady elements_order 5 3
              (Script.start None)
              (snd (get_total_subscription_count Script.steady 5 (Script.start None)))
              (snd (fetch_pages Script.steady 5 5 None ∅
                      (snd (get_total_subscription_count Script.steady 5
                              (Script.start None)))))
              (list_to_set ["UCa"; "UCb"; "UCc"]))
    as (s' & Hrun & Hfile & Hload & Hreq).
  - reflexivity.
  - vm_compute. reflexivity.
  - vm_compute. lia.
  - exists s'. repeat split; try assumption.
    clear Hfile Hload Hreq.
    vm_compute in Hrun. injection Hrun as <-. reflexivity.
Defined.

(** The count that the reset check uses is the one of the start of the
    run: the account had three subscriptions then and has one when the pass
    is over; with the one channel processed the checkpoint is not reset,
    though a count taken now gives 1. *)
Example count_is_taken_at_run_start :
  let s' := snd (fetch_and_store_data Script.shrinking elements_order 5
                   (Script.start None)) in
  checkpoint_file s' = Some (Script.line "UCa")
  /\ fst (get_total_subscription_count Script.shrinking 5 s') = Returned 1.
Proof. split; reflexivity. Qed.

(** The search for UCb is refused after UCa was processed: the run returns,
    the file still holds what it held, and the row of UCa is in the table. *)
Lemma http_error_in_pass_witness :
  exists s',
    fetch_and_store_data Script.flaky elements_order 5
      (Script.start (Some (Script.line "UCc")))
    = (Returned tt, s')
    /\ checkpoint_file s' = Some (Script.line "UCc")
    /\ length (videos s') = 1
    /\ last (log s') = Some (ERROR, HttpErrorText 403 "quotaExceeded").
Proof.
  pose (s0 := Script.start (Some (Script.line "UCc"))).
  pose (s1 := snd (get_total_subscription_count Script.flaky 5 s0)).
  pose (s2 := snd (fetch_pages Script.flaky 5 5 None
                     (checkpoint_of (checkpoint_file s0)) s1)).
  destruct (http_error_in_pass Script.flaky elements_order 5 3 s0 s1 s2
              Script.quota_exceeded)
    as (s' & Hrun & Hfile & Hrows & _ & Hlog & _).
  - reflexivity.
  - vm_compute. reflexivity.
  - exists s'. split; [exact Hrun|]. split; [exact Hfile|].
    rewrite Hrows, Hlog, last_snoc. split; reflexivity.
Defined.

(** UCa is in the checkpoint: its item is passed over, and the run enters
    each of the other channels once. *)
Lemma processed_channel_is_skipped_witness :
  fetch_items Script.steady 5 [Script.channel_a; Script.channel_b] {["UCa"]}
    (Script.start None)
  = fetch_items Script.steady 5 [Script.channel_b] {["UCa"]} (Script.start None)
  /\ first_searches
       (requests (snd (fetch_and_store_data Script.steady elements_order 5
                         (Script.start (Some (Script.line "UCa"))))))
     = ["UCb"; "UCc"].
Proof.
  destruct (processed_channel_is_skipped Script.steady elements_order 5
              Script.channel_a [Script.channel_b] {["UCa"]}
              (Script.start None) (Script.start (Some (Script.line "UCa"))))
    as [Hskip _].
  - apply elem_of_singleton. reflexivity.
  - split; [exact Hskip | reflexivity].
Defined.

(** From the checkpoint {UCa}, the pass over UCa, UCb, UCc ends with the
    three ids. *)
Lemma checkpoint_only_grows_witness :
  ({["UCa"]} : gset string) ⊆ list_to_set ["UCa"; "UCb"; "UCc"].
Proof.
  pose (r := fetch_pages Script.steady 5 5 None {["UCa"]} (Script.start None)).
  destruct (checkpoint_only_grows Script.steady 5 5 None {["UCa"]}
              (list_to_set ["UCa"; "UCb"; "UCc"]) (Script.start None) (snd r))
    as [Hsub _].
  - vm_compute. reflexivity.
  - exact Hsub.
Defined.

(** Three subscriptions on pages of two and one: the count is 3, and the
    pass enters the three channels in their order. *)
Lemma pagination_visits_every_item_witness :
  (exists s',
      get_total_subscription_count Script.steady 5 (Script.start None)
      = (Returned 3, s'))
  /\ exists C s',
       fetch_pages Script.steady 5 5 None ∅ (Script.start None) = (Returned C, s')
       /\ first_searches (requests s') = ["UCa"; "UCb"; "UCc"].
Proof.
  destruct (pagination_visits_every_item Script.steady Script.pages_abc 5
              (platform_serves _ _ "id") (platform_serves _ _ "snippet"))
    as (Hcount & Hpass & Hreturns).
  - simpl. lia.
  - split; [exact (Hcount (Script.start None))|].
    destruct (Hreturns 5 steady_process_subscription ∅ (Script.start None))
      as (C & s' & Hrun).
    exists C, s'. split; [exact Hrun|].
    destruct (Hpass 5 ∅ (Script.start None) C s' Hrun) as (Hreq & _ & _).
    exact Hreq.
Defined.

(** A statistics lookup with an empty item list: no row, and the video is
    logged as saved. *)
Lemma video_without_statistics_witness :
  exists s',
    process_video Script.bare "A" Script.clip (Script.start None) = (Returned tt, s')
    /\ videos s' = []
    /\ log s' = [(INFO, Text "Video 'clip' data saved successfully.")].
Proof.
  exact (video_without_statistics Script.bare "A" Script.clip (Script.start None)
           {| details_items := Some [] |} 1 eq_refl (or_intror eq_refl)).
Defined.

(** Two ids written over an older file are read back as they are. *)
Lemma save_then_load_witness :
  exists s',
    save_processed_channels elements_order (list_to_set ["UCa"; "UCb"])
      (Script.start (Some (Script.line "UCold")))
    = (Returned tt, s')
    /\ load_processed_channels s' = (Returned (list_to_set ["UCa"; "UCb"]), s').
Proof.
  destruct (save_then_load elements_order (list_to_set ["UCa"; "UCb"])
              (Script.start (Some (Script.line "UCold"))))
    as (s' & Hsave & _ & Hload).
  - intros c Hc. apply elem_of_list_to_set in Hc.
    repeat (apply elem_of_cons in Hc as [-> | Hc]; [reflexivity|]).
    now apply elem_of_nil in Hc.
  - exists s'. split; assumption.
Defined.

(** C9 as stated fails: an id with the character \x1c holds no newline, and
    is read back as two ids. *)
Lemma save_then_load_newline_free_counterexample :
  (forall c, c ∈ ({[Script.odd_id]} : gset string) -> newline_free c)
  /\ fst (load_processed_channels
            (snd (save_processed_channels elements_order {[Script.odd_id]}
                    (Script.start None))))
     = Returned (list_to_set ["U"; "C"])
  /\ fst (load_processed_channels
            (snd (save_processed_channels elements_order {[Script.odd_id]}
                    (Script.start None))))
     <> Returned {[Script.odd_id]}.
Proof.
  split; [|split].
  - intros c Hc. apply elem_of_singleton in Hc as ->. reflexivity.
  - vm_compute. reflexivity.
  - intros H. vm_compute in H. discriminate H.
Qed.

(** C8 as stated fails: the file holds UCgone, the account has the one
    subscription UCa; at the reset check the set is cleared ([T <= |C|])
    while it holds UCgone, which is not in the subscription list. *)
Lemma stale_id_at_clear_time :
  exists T s1 C s2,
    get_total_subscription_count Script.small 5
      (Script.start (Some (Script.line "UCgone")))
    = (Returned T, s1)
    /\ fetch_pages Script.small 5 5 None
         (checkpoint_of (Some (Script.line "UCgone"))) s1
       = (Returned C, s2)
    /\ serves Script.small "snippet" None [[Script.channel_a]]
    /\ reset_when_complete C T = ∅
    /\ "UCgone" ∈ C
    /\ "UCgone" ∉ channelId <$> concat [[Script.channel_a]].
Proof.
  eexists _, _, (list_to_set ["UCgone"; "UCa"]), _.
  split; [reflexivity|]. split; [vm_compute; reflexivity|].
  split; [apply small_serves|]. split; [vm_compute; reflexivity|].
  split; [set_solver|].
  simpl. intros H. apply list_elem_of_singleton in H. discriminate H.
Qed.

(** An [HttpError] of the counting pass is the outcome of the run: line 54
    is not inside the [try]. *)
Lemma counting_error_propagates
    {W : Type} (youtube : Api W) (order : SetOrder)
    (fuel : nat) (s0 s1 : Sys W) (e : HttpError) :
  get_total_subscription_count youtube fuel s0 = (Raised e, s1) ->
  fetch_and_store_data youtube order fuel s0 = (Raised e, s1).
Proof.
  intros H. unfold fetch_and_store_data. unfold bind at 1.
  rewrite load_processed_channels_eq. unfold bind at 1. now rewrite H.
Qed.

(** C6 fails on the code: the counting pass of line 54 runs before the
    [try] of line 56.  When the platform refuses the first request, the
    [HttpError] leaves [fetch_and_store_data]; nothing is logged or
    printed. *)
Theorem http_error_while_counting_escapes :
  fetch_and_store_data Script.refusing elements_order 5 (Script.start None)
  = (Raised Script.quota_exceeded,
     {| remote := 1; checkpoint_file := None; videos := []; log := [];
        stdout := []; requests := [ReqSubscriptions "id" None]; slept := 0 |}).
Proof. reflexivity. Qed.

(** ** More about the checkpoint file *)

Module FileFacts.
Import Text TextFacts.

Local Open Scope string_scope.

Lemma is_lf_boundary (c : ascii) : is_lf c = true -> is_line_boundary c = true.
Proof. unfold is_lf, is_line_boundary. intros H. simpl. now rewrite H. Qed.

Lemma is_lf_not_cr (c : ascii) : is_lf c = true -> is_cr c = false.
Proof.
  unfold is_lf, is_cr. intros H. apply Nat.eqb_eq in H. now rewrite H.
Qed.

(** The lines of [str.splitlines] hold no line boundary. *)
Lemma splitlines_from_free (s line : string) :
  free_of is_line_boundary line = true ->
  Forall (fun id => free_of is_line_boundary id = true) (splitlines_from line s).
Proof.
  revert line. induction s as [|c rest IH]; intros line Hline; simpl.
  - destruct line; repeat constructor. exact Hline.
  - destruct (is_line_boundary c) eqn:Hb.
    + constructor; [exact Hline|].
      destruct (is_cr c); [|now apply IH].
      destruct rest as [|c' rest']; [now apply IH|].
      destruct (is_lf c') eqn:Hlf; [|now apply IH].
      specialize (IH "" eq_refl). simpl in IH.
      rewrite (is_lf_boundary _ Hlf), (is_lf_not_cr _ Hlf) in IH.
      now apply Forall_inv_tail in IH.
    + apply IH. rewrite free_of_append. simpl. now rewrite Hline, Hb.
Qed.

Lemma universal_newlines_app (id rest : string) :
  free_of is_cr id = true ->
  universal_newlines (id ++ rest) = id ++ universal_newlines rest.
Proof.
  induction id as [|c id IH]; intros H; [reflexivity|].
  simpl in H. apply andb_true_iff in H as [Hc Hid]. apply negb_true_iff in Hc.
  rewrite !append_cons. simpl. now rewrite Hc, (IH Hid).
Qed.

Lemma free_head_not_lf (s : string) :
  free_of is_line_boundary s = true ->
  match s with
  | String c _ => is_lf c = false
  | EmptyString => True
  end.
Proof.
  destruct s as [|c s]; [trivial|]. simpl. intros H.
  apply andb_true_iff in H as [Hc _]. apply negb_true_iff in Hc.
  destruct (is_lf c) eqn:E; [|reflexivity].
  now rewrite (is_lf_boundary _ E) in Hc.
Qed.

Lemma cr_lines_head (ids : list string) (tail : string) :
  Forall (fun id => free_of is_line_boundary id = true) ids ->
  free_of is_line_boundary tail = true ->
  match lines_with (String CR "") ids ++ tail with
  | String c _ => is_lf c = false
  | EmptyString => True
  end.
Proof.
  intros Hids Htail. destruct Hids as [|id ids Hid _]; simpl.
  - rewrite append_nil_l. now apply free_head_not_lf.
  - destruct id as [|c id].
    + rewrite append_nil_l, !append_cons. reflexivity.
    + rewrite !append_cons. exact (free_head_not_lf _ Hid).
Qed.

Lemma universal_newlines_lines (term : string) (ids : list string) (tail : string) :
  term ∈ line_ends ->
  Forall (fun id => free_of is_line_boundary id = true) ids ->
  free_of is_line_boundary tail = true ->
  universal_newlines (lines_with term ids ++ tail) = write_lines ids ++ tail.
Proof.
  intros Hterm Hids Htail. induction Hids as [|id ids Hid Hids IH]; simpl.
  - rewrite !append_nil_l.
    apply universal_newlines_no_cr. now apply free_of_boundary_cr.
  - rewrite !append_assoc.
    rewrite (universal_newlines_app _ _ (free_of_boundary_cr _ Hid)).
    f_equal. rewrite append_cons. rewrite <- IH.
    unfold line_ends in Hterm.
    apply elem_of_cons in Hterm as [-> | Hterm];
      [|apply elem_of_cons in Hterm as [-> | Hterm];
        [|apply list_elem_of_singleton in Hterm as ->]].
    + rewrite append_cons, append_nil_l. reflexivity.
    + rewrite !append_cons, append_nil_l. reflexivity.
    + rewrite append_cons, append_nil_l.
      pose proof (cr_lines_head ids tail Hids Htail) as Hhead.
      simpl. destruct (lines_with (String CR "") ids ++ tail) as [|c' rest'] eqn:E.
      * reflexivity.
      * now rewrite Hhead.
Qed.

Lemma splitlines_from_tail (line tail : string) :
  free_of is_line_boundary tail = true ->
  splitlines_from line tail
  = match line ++ tail with
    | EmptyString => []
    | _ => [line ++ tail]
    end.
Proof.
  revert line. induction tail as [|c tail IH]; intros line H.
  - rewrite append_empty_r. reflexivity.
  - simpl in H. apply andb_true_iff in H as [Hc Ht]. apply negb_true_iff in Hc.
    simpl. rewrite Hc, (IH _ Ht), append_assoc, append_cons, append_nil_l.
    reflexivity.
Qed.

Lemma splitlines_write_lines_tail (ids : list string) (tail : string) :
  Forall (fun id => free_of is_line_boundary id = true) ids ->
  free_of is_line_boundary tail = true ->
  splitlines (write_lines ids ++ tail)
  = (ids ++ match tail with
            | EmptyString => []
            | _ => [tail]
            end)%list.
Proof.
  unfold splitlines. intros Hids Htail.
  induction Hids as [|id ids Hid _ IH]; simpl.
  - rewrite append_nil_l, (splitlines_from_tail _ _ Htail), append_nil_l.
    reflexivity.
  - rewrite append_assoc, append_cons.
    rewrite (splitlines_from_line _ _ _ Hid), IH, append_nil_l. reflexivity.
Qed.

End FileFacts.

Section FileReading.

Context {W : Type} (order : SetOrder).

Local Open Scope list_scope.

Lemma written_set_is_read (S : gset string) (s : Sys W) :
  (forall c, c ∈ S -> line_free c) ->
  load_processed_channels
    (with_checkpoint_file (Some (Text.write_lines (iter_set order S))) s)
  = (Returned S,
     with_checkpoint_file (Some (Text.write_lines (iter_set order S))) s).
Proof.
  intros Hfree. rewrite load_processed_channels_eq. simpl. do 2 f_equal.
  assert (Hall : Forall (fun id => Text.free_of Text.is_line_boundary id = true)
                   (iter_set order S)).
  { apply Forall_forall. intros c Hc. apply Hfree.
    exact (proj1 (iter_set_elem order S c) Hc). }
  rewrite (TextFacts.universal_newlines_no_cr _ (TextFacts.write_lines_no_cr _ Hall)).
  rewrite (TextFacts.splitlines_write_lines _ Hall).
  apply list_to_set_iter_set.
Qed.

(** Whatever the checkpoint file holds, the set loaded from it is written
    back and loaded again as the same set: the ids of a loaded set hold no
    line boundary. *)
Theorem loaded_set_is_stable (text : string) (s : Sys W) :
  (forall c, c ∈ checkpoint_of (Some text) -> line_free c)
  /\ exists s',
       save_processed_channels order (checkpoint_of (Some text)) s
       = (Returned tt, s')
       /\ load_processed_channels s' = (Returned (checkpoint_of (Some text)), s').
Proof.
  assert (Hfree : forall c, c ∈ checkpoint_of (Some text) -> line_free c).
  { intros c Hc. simpl in Hc. apply elem_of_list_to_set in Hc.
    pose proof (FileFacts.splitlines_from_free
                  (Text.universal_newlines text) "" eq_refl) as Hall.
    rewrite Forall_forall in Hall. exact (Hall c Hc). }
  split; [exact Hfree|].
  eexists. split; [apply save_processed_channels_eq|].
  now apply written_set_is_read.
Qed.

(** A checkpoint file whose lines end in \n, in \r\n or in \r is loaded as
    the set of its lines, also when the last line has no line end. *)
Theorem load_any_line_end
    (term : string) (ids : list string) (last : string) (s : Sys W) :
  term ∈ line_ends ->
  Forall line_free ids ->
  line_free last ->
  load_processed_channels
    (with_checkpoint_file (Some (lines_with term ids ++ last)%string) s)
  = (Returned (list_to_set (ids ++ match last with
                                    | EmptyString => []
                                    | _ => [last]
                                    end)),
     with_checkpoint_file (Some (lines_with term ids ++ last)%string) s).
Proof.
  intros Hterm Hids Hlast. rewrite load_processed_channels_eq. simpl.
  rewrite (FileFacts.universal_newlines_lines term ids last Hterm Hids Hlast).
  now rewrite (FileFacts.splitlines_write_lines_tail ids last Hids Hlast).
Qed.

End FileReading.

(** ** The videos of a channel *)

Section Videos.

Context {W : Type} (youtube : Api W).

Local Open Scope list_scope.

(** With a statistics item, [process_video] inserts one row, made of the
    two titles and of the first item ([items[0]]) alone, and logs the
    video. *)
Theorem video_with_statistics
    (ct : string) (video : Video) (s : Sys W)
    (statistics : Statistics) (more : list Statistics) (w : W) :
  videos_list youtube (videoId video) (remote s)
  = (inr {| details_items := Some (statistics :: more) |}, w) ->
  exists s',
    process_video youtube ct video s = (Returned tt, s')
    /\ videos s'
       = videos s
         ++ [{| channel_title := ct;
                video_title := video_snippet_title video;
                views := get (viewCount statistics) (JInt 0);
                likes := get (likeCount statistics) (JInt 0);
                comment_count := get (commentCount statistics) (JInt 0) |}]
    /\ log s' = log s ++ [(INFO, saved_message (video_snippet_title video))]
    /\ requests s' = requests s ++ [ReqVideos (videoId video)].
Proof.
  intros Hans. unfold process_video, bind, execute. simpl. rewrite Hans. simpl.
  eexists. repeat split.
Qed.

(** When the statistics lookup is refused, [process_video] raises the
    error: no row is inserted and the video is not logged as saved. *)
Theorem video_lookup_refused
    (ct : string) (video : Video) (s : Sys W) (e : HttpError) (w : W) :
  videos_list youtube (videoId video) (remote s) = (inl e, w) ->
  exists s',
    process_video youtube ct video s = (Raised e, s')
    /\ videos s' = videos s
    /\ log s' = log s
    /\ requests s' = requests s ++ [ReqVideos (videoId video)].
Proof.
  intros Hans. unfold process_video, bind, execute. simpl. rewrite Hans.
  eexists. repeat split.
Qed.

(** What one call of [process_video] does, however it ends. *)
Lemma process_video_run
    (ct : string) (video : Video) (s s' : Sys W) (r : Outcome unit) :
  process_video youtube ct video s = (r, s') ->
  requests s' = requests s ++ [ReqVideos (videoId video)]
  /\ slept s' = slept s
  /\ checkpoint_file s' = checkpoint_file s
  /\ stdout s' = stdout s
  /\ ((r = Returned tt
       /\ log s' = log s ++ [(INFO, saved_message (video_snippet_title video))]
       /\ exists rows,
            videos s' = videos s ++ rows
            /\ length rows <= 1
            /\ Forall (fun row => channel_title row = ct
                                  /\ video_title row = video_snippet_title video)
                 rows)
      \/ (exists e, r = Raised e) /\ log s' = log s /\ videos s' = videos s).
Proof.
  unfold process_video, bind, execute. simpl.
  destruct (videos_list youtube (videoId video) (remote s)) as [[e|d] w].
  - intros [= <- <-]. simpl. repeat split. right. eauto.
  - destruct (details_items d) as [[|st more]|]; simpl; intros [= <- <-]; simpl;
      repeat split; left; (split; [reflexivity|]); (split; [reflexivity|]).
    + exists []. rewrite app_nil_r. repeat split; [simpl; lia | constructor].
    + eexists [_]. repeat split; [simpl; lia | repeat constructor].
    + exists []. rewrite app_nil_r. repeat split; [simpl; lia | constructor].
Qed.

Lemma process_videos_returned
    (ct : string) (vs : list Video) (s s' : Sys W) :
  process_videos youtube ct vs s = (Returned tt, s') ->
  lookups (requests s') = lookups (requests s) ++ (videoId <$> vs)
  /\ log s' = log s ++ saved_entries vs
  /\ slept s' = slept s + length vs
  /\ search_windows (requests s') = search_windows (requests s)
  /\ exists rows,
       videos s' = videos s ++ rows
       /\ length rows <= length vs
       /\ Forall (fun row => channel_title row = ct) rows.
Proof.
  revert s. induction vs as [|v vs IH]; intros s; simpl.
  - intros [= <-]. rewrite !app_nil_r, Nat.add_0_r. repeat split.
    exists []. rewrite app_nil_r. repeat split; [simpl; lia | constructor].
  - unfold bind at 1.
    destruct (process_video youtube ct v s) as [[[]|e|] s1] eqn:E; try discriminate.
    destruct (process_video_run _ _ _ _ _ E)
      as (Hreq & Hsl & _ & _ & [(_ & Hlog & rows1 & Hrows & Hlen & Hall)
                               | ([e He] & _)]); [|discriminate].
    unfold bind at 1. simpl. intros Hrest.
    destruct (IH _ Hrest) as (Hreq2 & Hlog2 & Hsl2 & Hwin2 & rows2 & Hrows2 & Hlen2 & Hall2).
    simpl in *. unfold lookups, search_windows in *.
    rewrite Hreq2, Hlog2, Hsl2, Hwin2, Hreq, Hlog, Hsl, Hrows2, Hrows.
    rewrite !omap_app, <- !app_assoc. simpl. rewrite app_nil_r.
    repeat split; [lia|].
    exists (rows1 ++ rows2). rewrite length_app. repeat split; [lia|].
    apply Forall_app. split; [|assumption].
    eapply Forall_impl; [exact Hall|]. now intros row [? _].
Qed.

(** When the loop over the videos of a page returns, each video was looked
    up once and in order, is logged as saved, and was followed by a pause
    of a tenth of a second; the page gave at most one row a video, and the
    rows carry the channel's title. *)
Theorem videos_of_a_page
    (ct : string) (vs : list Video) (s s' : Sys W) :
  process_videos youtube ct vs s = (Returned tt, s') ->
  lookups (requests s') = lookups (requests s) ++ (videoId <$> vs)
  /\ log s' = log s ++ saved_entries vs
  /\ slept s' = slept s + length vs
  /\ search_windows (requests s') = search_windows (requests s)
  /\ exists rows,
       videos s' = videos s ++ rows
       /\ length rows <= length vs
       /\ Forall (fun row => channel_title row = ct) rows.
Proof. apply process_videos_returned. Qed.

Lemma serves_videos_head
    (c ya : string) (token : option string) (pages : list (list Video))
    (page : Page Video) (w : W) :
  serves_videos youtube c token pages ->
  fst (search_list youtube c ya token w) = inr page ->
  exists rest,
    pages = items page :: rest
    /\ if truthy (nextPageToken page)
       then serves_videos youtube c (nextPageToken page) rest
       else rest = [].
Proof.
  intros Hserves Hpage.
  inversion Hserves as [tk pg next Hans Hnext | tk pg next rest Hans Hnext Hrest];
    subst; specialize (Hans ya w); rewrite Hpage in Hans;
    injection Hans as ->; simpl; rewrite Hnext; eauto.
Qed.

Lemma process_subscription_loop_returned
    (fuel : nat) (c t ya : string) (token : option string)
    (pages : list (list Video)) (s s' : Sys W) :
  serves_videos youtube c token pages ->
  process_subscription_loop youtube fuel c t ya token s = (Returned tt, s') ->
  lookups (requests s') = lookups (requests s) ++ (videoId <$> concat pages)
  /\ log s' = log s ++ saved_entries (concat pages)
  /\ slept s' = slept s + length (concat pages) + 100 * (length pages - 1)
  /\ search_windows (requests s')
     = search_windows (requests s) ++ replicate (length pages) ya
  /\ exists rows,
       videos s' = videos s ++ rows
       /\ length rows <= length (concat pages)
       /\ Forall (fun row => channel_title row = t) rows.
Proof.
  revert token pages s. induction fuel as [|fuel IH]; intros token pages s Hsrv;
    simpl; [discriminate|].
  unfold bind at 1.
  pose proof (execute_requests (ReqSearch c ya token)
                (search_list youtube c ya token) s) as Hreq.
  destruct (execute _ _ s) as [[page|e|] s1] eqn:E; simpl in Hreq; try discriminate.
  assert (Hs1 : log s1 = log s /\ slept s1 = slept s /\ videos s1 = videos s).
  { unfold execute in E. destruct (search_list _ _ _ _ _) as [[e|a] w];
      [discriminate E|]. injection E as _ <-. repeat split. }
  destruct Hs1 as (Hlog1 & Hsl1 & Hv1).
  apply execute_returned in E.
  destruct (serves_videos_head _ _ _ _ _ _ Hsrv E) as (rest & -> & Hrest).
  unfold bind at 1.
  destruct (process_videos youtube t (items page) s1) as [[[]|e|] s2] eqn:E2;
    try discriminate.
  destruct (process_videos_returned _ _ _ _ E2)
    as (Hlk2 & Hlog2 & Hsl2 & Hwin2 & rows2 & Hrows2 & Hlen2 & Hall2).
  assert (Hlk : lookups (requests s2) = lookups (requests s) ++ (videoId <$> items page)).
  { rewrite Hlk2, Hreq. unfold lookups. rewrite omap_app. simpl.
    now rewrite app_nil_r. }
  assert (Hwin : search_windows (requests s2) = search_windows (requests s) ++ [ya]).
  { rewrite Hwin2, Hreq. unfold search_windows. now rewrite omap_app. }
  destruct (truthy (nextPageToken page)) eqn:Htok.
  - unfold bind at 1. simpl. intros Hloop.
    destruct (IH _ _ _ Hrest Hloop)
      as (Hlk3 & Hlog3 & Hsl3 & Hwin3 & rows3 & Hrows3 & Hlen3 & Hall3).
    simpl in Hlk3, Hlog3, Hsl3, Hwin3, Hrows3.
    assert (Hpos : 0 < length rest).
    { destruct rest; [inversion Hrest | simpl; lia]. }
    simpl. rewrite fmap_app, length_app. unfold saved_entries in *.
    rewrite fmap_app.
    rewrite Hlk3, Hlk, Hlog3, Hlog2, Hlog1, Hsl3, Hsl2, Hsl1, Hwin3, Hwin.
    rewrite <- !app_assoc. repeat split; [lia|].
    exists (rows2 ++ rows3). rewrite Hrows3, Hrows2, Hv1, <- app_assoc, length_app.
    repeat split; [lia|]. now apply Forall_app.
  - intros [= <-]. subst rest. simpl. rewrite !app_nil_r.
    rewrite Hlk, Hlog2, Hlog1, Hsl2, Hsl1, Hwin. repeat split; [lia|].
    exists rows2. rewrite Hrows2, Hv1. repeat split; assumption.
Qed.

Lemma process_videos_returns (ct : string) (vs : list Video) :
  lookups_answered youtube ->
  forall s, exists s', process_videos youtube ct vs s = (Returned tt, s').
Proof.
  intros Hans. induction vs as [|v vs IH]; intros s; simpl; [now exists s|].
  unfold bind at 1.
  assert (Hv : exists s1, process_video youtube ct v s = (Returned tt, s1)).
  { unfold process_video, bind, execute. simpl.
    destruct (Hans (videoId v) (remote s)) as [d Hd].
    destruct (videos_list youtube (videoId v) (remote s)) as [[e|d'] w];
      simpl in Hd; [discriminate|].
    destruct (details_items d') as [[|st more]|]; simpl; eauto. }
  destruct Hv as [s1 ->]. unfold bind at 1. simpl. apply IH.
Qed.

Lemma process_subscription_loop_returns
    (c t ya : string) (token : option string) (pages : list (list Video)) :
  lookups_answered youtube ->
  serves_videos youtube c token pages ->
  forall fuel s,
    length pages <= fuel ->
    exists s', process_subscription_loop youtube fuel c t ya token s = (Returned tt, s').
Proof.
  intros Hans.
  induction 1 as [token page next Hpg Hnext | token page next rest Hpg Hnext _ IH];
    intros fuel s Hfuel;
    (destruct fuel as [|fuel]; [simpl in Hfuel; lia|]);
    simpl; unfold bind at 1, execute; simpl;
    specialize (Hpg ya (remote s));
    destruct (search_list youtube c ya token (remote s)) as [[e|pg] w];
    simpl in Hpg; try discriminate; injection Hpg as ->; simpl;
    unfold bind at 1;
    match goal with
    | |- context [process_videos youtube t page ?s1] =>
        destruct (process_videos_returns t page Hans s1) as (s2 & ->)
    end; rewrite Hnext.
  - now exists s2.
  - unfold bind at 1. simpl. apply IH. simpl in Hfuel. lia.
Qed.

(** When the platform serves the videos of a channel as [pages] and the
    loop may make as many rounds as there are pages:
    [process_subscription], when it returns, has looked up every video of
    every page once and in order and logged each as saved; it has sent one
    search request a page, all with the time window computed when it was
    called; it has paused a tenth of a second after each video and ten
    seconds between two pages; it has inserted at most one row a video,
    each with the title of the subscription.  And it does return when no
    lookup is refused. *)
Theorem channel_videos_are_all_visited
    (fuel : nat) (item : Subscription) (pages : list (list Video)) :
  serves_videos youtube (channelId item) None pages ->
  length pages <= fuel ->
  (forall s s',
      process_subscription youtube fuel item s = (Returned tt, s') ->
      lookups (requests s') = lookups (requests s) ++ (videoId <$> concat pages)
      /\ log s' = log s ++ saved_entries (concat pages)
      /\ slept s' = slept s + length (concat pages) + 100 * (length pages - 1)
      /\ search_windows (requests s')
         = search_windows (requests s)
           ++ replicate (length pages) (publishedAfter_now youtube (remote s))
      /\ exists rows,
           videos s' = videos s ++ rows
           /\ length rows <= length (concat pages)
           /\ Forall (fun row => channel_title row = title item) rows)
  /\ (lookups_answered youtube ->
      forall s, exists s',
        process_subscription youtube fuel item s = (Returned tt, s')).
Proof.
  intros Hsrv Hfuel. split.
  - intros s s' H. unfold process_subscription, bind in H.
    exact (process_subscription_loop_returned _ _ _ _ _ _ _ _ Hsrv H).
  - intros Hans s. unfold process_subscription, bind.
    exact (process_subscription_loop_returns _ _ _ _ _ Hans Hsrv fuel s Hfuel).
Qed.

End Videos.

(** ** More about a whole run *)

Section Rows.

Context {W : Type} (youtube : Api W).

Local Open Scope list_scope.

Lemma inserts_ret {A} (Q : Row -> Prop) (a : A) : inserts (W:=W) Q (ret a).
Proof. intros s. exists []. now rewrite app_nil_r. Qed.

Lemma inserts_bind {A B} (Q : Row -> Prop) (m : M W A) (k : A -> M W B) :
  inserts Q m -> (forall a, inserts Q (k a)) -> inserts Q (bind m k).
Proof.
  intros Hm Hk s. unfold bind. destruct (Hm s) as (rows1 & H1 & Q1).
  destruct (m s) as [[a|e|] s1]; simpl in *; eauto.
  destruct (Hk a s1) as (rows2 & H2 & Q2).
  exists (rows1 ++ rows2). rewrite H2, H1, <- app_assoc.
  split; [reflexivity | now apply Forall_app].
Qed.

Lemma inserts_weaken {A} (Q Q' : Row -> Prop) (m : M W A) :
  (forall row, Q row -> Q' row) -> inserts Q m -> inserts Q' m.
Proof.
  intros HQ Hm s. destruct (Hm s) as (rows & H & Hall).
  exists rows. split; [exact H|]. eapply Forall_impl; eauto.
Qed.

Lemma inserts_none {A} (Q : Row -> Prop) (m : M W A) :
  (forall s, videos (snd (m s)) = videos s) -> inserts Q m.
Proof. intros H s. exists []. now rewrite app_nil_r, H. Qed.

Lemma inserts_execute {A} (Q : Row -> Prop) (req : Request)
    (answer : W -> (HttpError + A) * W) :
  inserts Q (execute req answer).
Proof.
  apply inserts_none. intros s. unfold execute.
  now destruct (answer _) as [[e|a] w].
Qed.

Lemma inserts_process_video (ct : string) (video : Video) :
  inserts (fun row => channel_title row = ct) (process_video youtube ct video).
Proof.
  intros s. destruct (process_video youtube ct video s) as [r s'] eqn:E.
  destruct (process_video_run _ _ _ _ _ _ E)
    as (_ & _ & _ & _ & [(_ & _ & rows & Hrows & _ & Hall) | (_ & _ & Hsame)]).
  - exists rows. split; [exact Hrows|].
    eapply Forall_impl; [exact Hall|]. now intros row [? _].
  - exists []. simpl. now rewrite app_nil_r.
Qed.

Lemma inserts_process_videos (ct : string) (vs : list Video) :
  inserts (fun row => channel_title row = ct) (process_videos youtube ct vs).
Proof.
  induction vs as [|v vs IH]; simpl; [apply inserts_ret|].
  apply inserts_bind; [apply inserts_process_video|]. intros _.
  apply inserts_bind; [now apply inserts_none | intros _; exact IH].
Qed.

Lemma inserts_process_subscription_loop
    (fuel : nat) (c t ya : string) (token : option string) :
  inserts (fun row => channel_title row = t)
    (process_subscription_loop youtube fuel c t ya token).
Proof.
  revert token. induction fuel as [|fuel IH]; intros token; simpl;
    [now apply inserts_none|].
  apply inserts_bind; [apply inserts_execute|]. intros page.
  apply inserts_bind; [apply inserts_process_videos|]. intros _.
  destruct (truthy _); [|apply inserts_ret].
  apply inserts_bind; [now apply inserts_none | intros _; apply IH].
Qed.

Lemma inserts_process_subscription (fuel : nat) (item : Subscription) :
  inserts (fun row => channel_title row = title item)
    (process_subscription youtube fuel item).
Proof.
  unfold process_subscription. apply inserts_bind; [now apply inserts_none|].
  intros ya. apply inserts_process_subscription_loop.
Qed.

Lemma inserts_fetch_items
    (fuel : nat) (its : list Subscription) (P : gset string) :
  inserts (fun row => exists item,
             item ∈ its /\ (channelId item ∉ P) /\ channel_title row = title item)
    (fetch_items youtube fuel its P).
Proof.
  revert P. induction its as [|item its IH]; intros P s; simpl.
  - exists []. now rewrite app_nil_r.
  - unfold bind at 1. destruct (decide (channelId item ∈ P)) as [Hin|Hout]; simpl.
    + destruct (IH P s) as (rows & Hrows & Hall). exists rows.
      split; [exact Hrows|]. eapply Forall_impl; [exact Hall|].
      intros row (it & H1 & H2 & H3). exists it. split; [set_solver | now split].
    + unfold bind at 1.
      destruct (inserts_process_subscription fuel item s) as (rows1 & Hrows1 & Hall1).
      assert (Hmine : Forall (fun row => exists it,
                        it ∈ item :: its /\ (channelId it ∉ P)
                        /\ channel_title row = title it) rows1).
      { eapply Forall_impl; [exact Hall1|]. intros row Hrow.
        exists item. split; [set_solver | now split]. }
      destruct (process_subscription youtube fuel item s) as [[u|e|] s1];
        simpl in *; eauto.
      destruct (IH ({[channelId item]} ∪ P) s1) as (rows2 & Hrows2 & Hall2).
      exists (rows1 ++ rows2). rewrite Hrows2, Hrows1, <- app_assoc.
      split; [reflexivity|]. apply Forall_app. split; [exact Hmine|].
      eapply Forall_impl; [exact Hall2|].
      intros row (it & H1 & H2 & H3). exists it.
      split; [set_solver|]. split; [set_solver | exact H3].
Qed.

Lemma inserts_fetch_pages
    (fuel n : nat) (token : option string) (P : gset string)
    (pages : list (list Subscription)) :
  serves youtube "snippet" token pages ->
  inserts (fun row => exists item,
             item ∈ concat pages /\ (channelId item ∉ P)
             /\ channel_title row = title item)
    (fetch_pages youtube fuel n token P).
Proof.
  revert token P pages. induction n as [|n IH]; intros token P pages Hsrv s; simpl.
  - exists []. now rewrite app_nil_r.
  - unfold bind at 1.
    destruct (execute (ReqSubscriptions "snippet" token)
                (subscriptions_list youtube "snippet" token) s)
      as [[page|e|] s1] eqn:E.
    + assert (Hv1 : videos s1 = videos s).
      { pose proof (inserts_execute (fun _ => False)
                      (ReqSubscriptions "snippet" token)
                      (subscriptions_list youtube "snippet" token) s)
          as (rows & Hrows & Hall).
        rewrite E in Hrows. simpl in Hrows. destruct rows; [|now inversion Hall].
        now rewrite app_nil_r in Hrows. }
      apply execute_returned in E.
      destruct (serves_head _ _ _ _ _ _ Hsrv E) as (rest & -> & Hrest).
      unfold bind at 1.
      destruct (inserts_fetch_items fuel (items page) P s1) as (rows1 & Hrows1 & Hall1).
      assert (Hmine : Forall (fun row => exists it,
                        it ∈ concat (items page :: rest) /\ (channelId it ∉ P)
                        /\ channel_title row = title it) rows1).
      { eapply Forall_impl; [exact Hall1|]. intros row (it & H1 & H2 & H3).
        exists it. simpl. split; [set_solver | now split]. }
      destruct (fetch_items youtube fuel (items page) P s1) as [[P1|e|] s2] eqn:E2;
        simpl in Hrows1; rewrite Hv1 in Hrows1; eauto.
      destruct (fetch_items_run _ _ _ _ _ _ _ E2) as (ent & _ & _ & Hret).
      pose proof (proj2 (Hret _ eq_refl)) as HP1. clear Hret. subst P1.
      destruct (truthy (nextPageToken page)); [|simpl; eauto].
      destruct (IH (nextPageToken page) (P ∪ list_to_set (channelId <$> items page))
                  rest Hrest s2) as (rows2 & Hrows2 & Hall2).
      exists (rows1 ++ rows2). rewrite Hrows2, Hrows1, <- app_assoc.
      split; [reflexivity|]. apply Forall_app. split; [exact Hmine|].
      eapply Forall_impl; [exact Hall2|].
      intros row (it & H1 & H2 & H3). exists it. simpl.
      split; [set_solver|]. split; [set_solver | exact H3].
    + simpl. exists [].
      pose proof (inserts_execute (fun _ => False)
                    (ReqSubscriptions "snippet" token)
                    (subscriptions_list youtube "snippet" token) s)
        as (rows & Hrows & Hall).
      rewrite E in Hrows. simpl in Hrows. destruct rows; [|now inversion Hall].
      split; [exact Hrows | constructor].
    + now apply execute_out_of_fuel in E.
Qed.

End Rows.

Section RunFacts.

Context {W : Type} (youtube : Api W) (order : SetOrder).

Local Open Scope list_scope.

Lemma count_loop_value
    (pages : list (list Subscription)) (token : option string) :
  serves youtube "id" token pages ->
  forall fuel count s T s',
    get_total_subscription_count_loop youtube fuel count token s = (Returned T, s') ->
    T = count + length (concat pages).
Proof.
  induction 1 as [token page next Hans Hnext | token page next rest Hans Hnext _ IH];
    intros fuel count s T s';
    (destruct fuel as [|fuel]; [discriminate|]);
    simpl; unfold bind, execute; simpl;
    specialize (Hans (remote s));
    destruct (subscriptions_list youtube "id" token (remote s)) as [[e|pg] w];
    simpl in Hans; try discriminate; injection Hans as ->; simpl; rewrite Hnext.
  - intros [= <- _]. now rewrite app_nil_r.
  - intros H. apply IH in H. rewrite H, length_app. lia.
Qed.

Lemma count_loop_run (fuel count : nat) (token : option string) (s : Sys W) :
  exists tokens,
    requests (snd (get_total_subscription_count_loop youtube fuel count token s))
    = requests s ++ (ReqSubscriptions "id" <$> tokens)
    /\ (forall pages,
          serves youtube "id" token pages -> length pages <= fuel ->
          length tokens = length pages)
    /\ checkpoint_file
         (snd (get_total_subscription_count_loop youtube fuel count token s))
       = checkpoint_file s
    /\ videos (snd (get_total_subscription_count_loop youtube fuel count token s))
       = videos s
    /\ log (snd (get_total_subscription_count_loop youtube fuel count token s))
       = log s
    /\ stdout (snd (get_total_subscription_count_loop youtube fuel count token s))
       = stdout s
    /\ slept (snd (get_total_subscription_count_loop youtube fuel count token s))
       = slept s.
Proof.
  revert count token s. induction fuel as [|fuel IH]; intros count token s; simpl.
  - exists []. rewrite app_nil_r. repeat split.
    intros pages Hsrv Hlen. destruct Hsrv; simpl in Hlen; lia.
  - unfold bind, execute. simpl.
    destruct (subscriptions_list youtube "id" token (remote s)) as [[e|page] w] eqn:E.
    + exists [token]. simpl. repeat split.
      intros pages Hsrv _. destruct Hsrv as [tk pg nx Hans _ | tk pg nx rest Hans _ _];
        specialize (Hans (remote s)); rewrite E in Hans; discriminate.
    + simpl. destruct (truthy (nextPageToken page)) eqn:Htok.
      * destruct (IH (count + length (items page)) (nextPageToken page)
                    (with_remote w
                       (with_requests (requests s ++ [ReqSubscriptions "id" token]) s)))
          as (tokens & Hreq & Hlen & Hf & Hv & Hl & Ho & Hs).
        exists (token :: tokens). simpl in *.
        rewrite Hreq, <- app_assoc. repeat split; try assumption.
        intros pages Hsrv Hfuel.
        assert (Hpg : fst (subscriptions_list youtube "id" token (remote s)) = inr page)
          by now rewrite E.
        destruct (serves_head _ _ _ _ _ _ Hsrv Hpg) as (rest & -> & Hrest).
        rewrite Htok in Hrest. simpl in *. f_equal. apply Hlen; [assumption | lia].
      * exists [token]. simpl. repeat split.
        intros pages Hsrv _.
        assert (Hpg : fst (subscriptions_list youtube "id" token (remote s)) = inr page)
          by now rewrite E.
        destruct (serves_head _ _ _ _ _ _ Hsrv Hpg) as (rest & -> & Hrest).
        rewrite Htok in Hrest. now subst rest.
Qed.

(** The counting pass only lists the subscriptions with [part='id']: it
    changes neither the checkpoint file nor the table, the log or the
    console, and it does not sleep.  When the platform serves the
    subscriptions as [pages] and the loop may make as many rounds, it sends
    one request a page. *)
Theorem counting_only_lists (fuel : nat) (s : Sys W) :
  exists tokens,
    requests (snd (get_total_subscription_count youtube fuel s))
    = requests s ++ (ReqSubscriptions "id" <$> tokens)
    /\ (forall pages,
          serves youtube "id" None pages -> length pages <= fuel ->
          length tokens = length pages)
    /\ checkpoint_file (snd (get_total_subscription_count youtube fuel s))
       = checkpoint_file s
    /\ videos (snd (get_total_subscription_count youtube fuel s)) = videos s
    /\ log (snd (get_total_subscription_count youtube fuel s)) = log s
    /\ stdout (snd (get_total_subscription_count youtube fuel s)) = stdout s
    /\ slept (snd (get_total_subscription_count youtube fuel s)) = slept s.
Proof. apply count_loop_run. Qed.

(** A run, however it ends, removes no row, no log entry and no console
    line; and it leaves the checkpoint file as it was unless it completes
    (its last log entry is then the completion message). *)
Theorem run_never_removes (fuel : nat) (s0 : Sys W) :
  videos s0 `prefix_of` videos (snd (fetch_and_store_data youtube order fuel s0))
  /\ log s0 `prefix_of` log (snd (fetch_and_store_data youtube order fuel s0))
  /\ stdout s0 `prefix_of` stdout (snd (fetch_and_store_data youtube order fuel s0))
  /\ (checkpoint_file (snd (fetch_and_store_data youtube order fuel s0))
      = checkpoint_file s0
      \/ fst (fetch_and_store_data youtube order fuel s0) = Returned tt
         /\ last (log (snd (fetch_and_store_data youtube order fuel s0)))
            = Some (INFO, completed_message)).
Proof.
  destruct (fetch_and_store_data youtube order fuel s0) as [r s'] eqn:E.
  apply fetch_and_store_data_shape in E. simpl.
  assert (Hcount : forall r1 s1,
            get_total_subscription_count youtube fuel s0 = (r1, s1) -> extends s0 s1).
  { intros r1 s1 H. pose proof (grows_count_loop youtube fuel 0 None s0) as G.
    unfold get_total_subscription_count in H. now rewrite H in G. }
  assert (Hpass : forall P r2 s1 s2,
            fetch_pages youtube fuel fuel None P s1 = (r2, s2) -> extends s1 s2).
  { intros P r2 s1 s2 H. pose proof (grows_fetch_pages youtube fuel fuel None P s1) as G.
    now rewrite H in G. }
  destruct E as [e s1 H | s1 H | T s1 C s2 H1 H2 | T s1 e s2 H1 H2 | T s1 s2 H1 H2].
  - destruct (Hcount _ _ H) as [F V L O _]. auto.
  - destruct (Hcount _ _ H) as [F V L O _]. auto.
  - destruct (extends_trans _ _ _ (Hcount _ _ H1) (Hpass _ _ _ _ H2)) as [F V L O _].
    simpl. split; [exact V|]. split; [now apply prefix_app_r|]. split; [exact O|].
    right. split; [reflexivity | apply last_snoc].
  - destruct (extends_trans _ _ _ (Hcount _ _ H1) (Hpass _ _ _ _ H2)) as [F V L O _].
    simpl. split; [exact V|]. split; [now apply prefix_app_r|].
    split; [now apply prefix_app_r|]. now left.
  - destruct (extends_trans _ _ _ (Hcount _ _ H1) (Hpass _ _ _ _ H2)) as [F V L O _].
    auto.
Qed.

(** When the platform serves the subscriptions as [pages], every row that a
    run inserts, however the run ends, carries the title of a subscription
    of these pages whose channel the checkpoint file did not hold. *)
Theorem rows_come_from_open_subscriptions
    (pages : list (list Subscription)) (fuel : nat) (s0 : Sys W) :
  serves youtube "snippet" None pages ->
  exists rows,
    videos (snd (fetch_and_store_data youtube order fuel s0)) = videos s0 ++ rows
    /\ Forall (fun row => exists item,
                 item ∈ concat pages
                 /\ (channelId item ∉ checkpoint_of (checkpoint_file s0))
                 /\ channel_title row = title item) rows.
Proof.
  intros Hsrv.
  destruct (fetch_and_store_data youtube order fuel s0) as [r s'] eqn:E.
  apply fetch_and_store_data_shape in E. simpl.
  assert (Hcount : forall r1 s1,
            get_total_subscription_count youtube fuel s0 = (r1, s1) ->
            videos s1 = videos s0).
  { intros r1 s1 H. destruct (count_loop_run fuel 0 None s0) as (_ & _ & _ & _ & Hv & _).
    unfold get_total_subscription_count in H. now rewrite H in Hv. }
  assert (Hpass : forall r2 s1 s2,
            videos s1 = videos s0 ->
            fetch_pages youtube fuel fuel None (checkpoint_of (checkpoint_file s0)) s1
            = (r2, s2) ->
            exists rows,
              videos s2 = videos s0 ++ rows
              /\ Forall (fun row => exists item,
                           item ∈ concat pages
                           /\ (channelId item ∉ checkpoint_of (checkpoint_file s0))
                           /\ channel_title row = title item) rows).
  { intros r2 s1 s2 Hv H.
    destruct (inserts_fetch_pages youtube fuel fuel None
                (checkpoint_of (checkpoint_file s0)) pages Hsrv s1)
      as (rows & Hrows & Hall).
    rewrite H in Hrows. simpl in Hrows. rewrite Hv in Hrows. eauto. }
  destruct E as [e s1 H | s1 H | T s1 C s2 H1 H2 | T s1 e s2 H1 H2 | T s1 s2 H1 H2].
  - exists []. rewrite app_nil_r. split; [now apply (Hcount _ _ H) | constructor].
  - exists []. rewrite app_nil_r. split; [now apply (Hcount _ _ H) | constructor].
  - exact (Hpass _ _ _ (Hcount _ _ H1) H2).
  - exact (Hpass _ _ _ (Hcount _ _ H1) H2).
  - exact (Hpass _ _ _ (Hcount _ _ H1) H2).
Qed.

(** When the account does not change during the run (both passes are
    served the same pages) and the channel ids of its subscriptions are
    distinct, every run that completes leaves the checkpoint file empty,
    whatever the file held before. *)
Theorem stable_account_always_resets
    (pages : list (list Subscription)) (fuel : nat) (s0 s' : Sys W) :
  serves youtube "id" None pages ->
  serves youtube "snippet" None pages ->
  NoDup (channelId <$> concat pages) ->
  fetch_and_store_data youtube order fuel s0 = (Returned tt, s') ->
  last (log s') = Some (INFO, completed_message) ->
  checkpoint_file s' = Some "".
Proof.
  intros Hid Hsnippet Hnd E Hlast.
  apply fetch_and_store_data_shape in E.
  inversion E as [| | T s1 C s2 H1 H2 | T s1 e s2 H1 H2 |]; subst.
  - clear Hlast. simpl.
    apply (count_loop_value pages None Hid) in H1. simpl in H1.
    destruct (fetch_pages_run _ _ _ _ _ _ _ _ H2)
      as (walked & entered & _ & _ & Hret & Hsrv).
    destruct (Hret _ eq_refl) as [_ HC].
    destruct (Hsrv _ Hsnippet) as [_ Hall]. rewrite (Hall _ eq_refl) in HC.
    assert (Hsize : T <= size C).
    { rewrite H1, <- (length_fmap channelId), <- (size_list_to_set (C:=gset string));
        [|exact Hnd].
      apply subseteq_size. set_solver. }
    unfold reset_when_complete. destruct (decide (T <= size C)); [|lia].
    now rewrite iter_set_empty.
  - simpl in Hlast. rewrite last_snoc in Hlast. discriminate.
Qed.

Lemma checkpoint_of_written (S : gset string) :
  (forall c, c ∈ S -> line_free c) ->
  checkpoint_of (Some (Text.write_lines (iter_set order S))) = S.
Proof.
  intros Hfree. simpl.
  assert (Hall : Forall (fun id => Text.free_of Text.is_line_boundary id = true)
                   (iter_set order S)).
  { apply Forall_forall. intros c Hc. apply Hfree.
    exact (proj1 (iter_set_elem order S c) Hc). }
  rewrite (TextFacts.universal_newlines_no_cr _ (TextFacts.write_lines_no_cr _ Hall)).
  rewrite (TextFacts.splitlines_write_lines _ Hall).
  apply list_to_set_iter_set.
Qed.

(** When the pass over the subscriptions returns with fewer ids than the
    count of the start of the run, the run writes the set to the checkpoint
    file as it is; with ids free of line boundaries the next load returns
    this set, and a next run that finds the file enters none of its
    channels. *)
Theorem partial_cycle_is_resumed
    (fuel T : nat) (s0 s1 s2 : Sys W) (C : gset string) :
  get_total_subscription_count youtube fuel s0 = (Returned T, s1) ->
  fetch_pages youtube fuel fuel None (checkpoint_of (checkpoint_file s0)) s1
  = (Returned C, s2) ->
  size C < T ->
  (forall c, c ∈ C -> line_free c) ->
  exists s',
    fetch_and_store_data youtube order fuel s0 = (Returned tt, s')
    /\ checkpoint_file s' = Some (Text.write_lines (iter_set order C))
    /\ load_processed_channels s' = (Returned C, s')
    /\ forall fuel' s'',
         checkpoint_file s'' = checkpoint_file s' ->
         exists entered,
           first_searches
             (requests (snd (fetch_and_store_data youtube order fuel' s'')))
           = first_searches (requests s'') ++ entered
           /\ forall c, c ∈ C -> c ∉ entered.
Proof.
  intros Hcount Hpass Hless Hfree.
  destruct (fetch_and_store_data youtube order fuel s0) as [r s'] eqn:E.
  apply fetch_and_store_data_shape in E.
  destruct E as [e s3 H | s3 H | T' s3 C' s4 H1 H2 | T' s3 e s4 H1 H2 | T' s3 s4 H1 H2];
    try congruence.
  rewrite Hcount in H1. injection H1 as <- <-.
  rewrite Hpass in H2. injection H2 as <- <-.
  assert (Hkeep : reset_when_complete C T = C).
  { unfold reset_when_complete. destruct (decide (T <= size C)); [lia | reflexivity]. }
  rewrite Hkeep. eexists. split; [reflexivity|]. split; [reflexivity|]. split.
  - rewrite load_processed_channels_eq. simpl checkpoint_file.
    now rewrite (checkpoint_of_written C Hfree).
  - intros fuel' s'' Hfile. simpl in Hfile.
    destruct (fetch_and_store_data youtube order fuel' s'') as [r' t'] eqn:E'.
    apply fetch_and_store_data_shape in E'.
    destruct (run_entered _ _ _ _ _ _ E') as (entered & Hreq & _ & Hout).
    exists entered. split; [exact Hreq|].
    intros c Hc Hin. apply (Hout c Hin).
    now rewrite Hfile, (checkpoint_of_written C Hfree).
Qed.

End RunFacts.

(** ** More runs on the scripted platforms *)

Lemma busy_serves_videos (channel_id : string) :
  serves_videos Script.busy channel_id None Script.video_pages.
Proof.
  eapply serves_videos_next with (next := Script.token_of 1);
    [intros ya w; reflexivity | reflexivity |].
  eapply serves_videos_last with (next := None);
    [intros ya w; reflexivity | reflexivity].
Qed.

Lemma busy_lookups_answered : lookups_answered Script.busy.
Proof. intros id w. eexists. reflexivity. Qed.

(** A file written with \r\n line ends and without a last line end. *)
Lemma load_any_line_end_witness :
  fst (load_processed_channels
         (with_checkpoint_file
            (Some (lines_with (String Text.CR (String Text.LF "")) ["UCa"; "UCb"]
                   ++ "UCc")%string)
            (Script.start None)))
  = Returned (list_to_set ["UCa"; "UCb"; "UCc"]).
Proof.
  rewrite (load_any_line_end (String Text.CR (String Text.LF "")) ["UCa"; "UCb"] "UCc"
             (Script.start None)).
  - reflexivity.
  - unfold line_ends. apply elem_of_cons. right. apply elem_of_cons. now left.
  - repeat constructor.
  - reflexivity.
Defined.

(** The first video of UCa has statistics without a comment count. *)
Lemma video_with_statistics_witness :
  exists s',
    process_video Script.steady "A" Script.clip (Script.start None) = (Returned tt, s')
    /\ videos s'
       = [{| channel_title := "A"; video_title := "clip"; views := JStr "10";
             likes := JStr "2"; comment_count := JInt 0 |}].
Proof.
  destruct (video_with_statistics Script.steady "A" Script.clip (Script.start None)
              {| viewCount := Some (JStr "10"); likeCount := Some (JStr "2");
                 commentCount := None |} [] 1 eq_refl)
    as (s' & Hrun & Hrows & _).
  exists s'. split; [exact Hrun | exact Hrows].
Defined.

(** A refused lookup: the error is raised, nothing is inserted or logged. *)
Lemma video_lookup_refused_witness :
  exists s',
    process_video Script.blind "A" Script.clip (Script.start None)
    = (Raised Script.quota_exceeded, s')
    /\ videos s' = [] /\ log s' = [].
Proof.
  destruct (video_lookup_refused Script.blind "A" Script.clip (Script.start None)
              Script.quota_exceeded 1 eq_refl)
    as (s' & Hrun & Hrows & Hlog & _).
  exists s'. repeat split; assumption.
Defined.

(** Two videos of a page, the second without statistics: two lookups, two
    log entries, two pauses, one row. *)
Lemma videos_of_a_page_witness :
  exists s',
    process_videos Script.busy "A" (default [] (Script.video_pages !! 0))
      (Script.start None)
    = (Returned tt, s')
    /\ lookups (requests s') = ["v1"; "v2"]
    /\ length (log s') = 2
    /\ slept s' = 2
    /\ length (videos s') = 1.
Proof.
  eexists. split; [reflexivity|].
  destruct (videos_of_a_page Script.busy "A" (default [] (Script.video_pages !! 0))
              (Script.start None)
              (snd (process_videos Script.busy "A"
                      (default [] (Script.video_pages !! 0)) (Script.start None))))
    as (Hlk & Hlog & Hsl & _).
  - reflexivity.
  - split; [exact Hlk|]. split; [exact (f_equal length Hlog)|].
    split; [exact Hsl | reflexivity].
Defined.

(** Three videos on two pages: three lookups in order, two searches with
    the same time window, 3 * 0.1 s + 10 s of pauses. *)
Lemma channel_videos_are_all_visited_witness :
  exists s',
    process_subscription Script.busy 5 Script.channel_a (Script.start None)
    = (Returned tt, s')
    /\ lookups (requests s') = ["v1"; "v2"; "v3"]
    /\ slept s' = 103
    /\ search_windows (requests s')
       = ["2023-11-04T00:00:00Z"; "2023-11-04T00:00:00Z"].
Proof.
  destruct (channel_videos_are_all_visited Script.busy 5 Script.channel_a
              Script.video_pages (busy_serves_videos _))
    as [Hfacts Hreturns].
  - simpl. lia.
  - destruct (Hreturns busy_lookups_answered (Script.start None)) as [s' Hrun].
    destruct (Hfacts _ _ Hrun) as (Hlk & _ & Hsl & Hwin & _).
    exists s'. split; [exact Hrun|]. split; [exact Hlk|]. split; assumption.
Defined.

(** With UCa in the checkpoint file, the rows of the run are those of B
    and C. *)
Lemma rows_come_from_open_subscriptions_witness :
  exists rows,
    videos (snd (fetch_and_store_data Script.steady elements_order 5
                   (Script.start (Some (Script.line "UCa")))))
    = rows
    /\ Forall (fun row => exists item,
                 item ∈ concat Script.pages_abc
                 /\ (channelId item ∉ ({["UCa"]} : gset string))
                 /\ channel_title row = title item) rows.
Proof.
  exact (rows_come_from_open_subscriptions Script.steady elements_order
           Script.pages_abc 5 (Script.start (Some (Script.line "UCa")))
           (platform_serves _ _ "snippet")).
Defined.

(** A run on the unchanging account with UCa already in the file: the file
    is left empty. *)
Lemma stable_account_always_resets_witness :
  checkpoint_file
    (snd (fetch_and_store_data Script.steady elements_order 5
            (Script.start (Some (Script.line "UCa")))))
  = Some "".
Proof.
  apply (stable_account_always_resets Script.steady elements_order
           Script.pages_abc 5 (Script.start (Some (Script.line "UCa")))).
  - apply platform_serves.
  - apply platform_serves.
  - vm_compute. repeat constructor; set_solver.
  - vm_compute. reflexivity.
  - reflexivity.
Defined.

(** The account shrinks from three subscriptions to one during the run:
    the file keeps UCa, and a next run does not enter UCa. *)
Lemma partial_cycle_is_resumed_witness :
  exists s',
    fetch_and_store_data Script.shrinking elements_order 5 (Script.start None)
    = (Returned tt, s')
    /\ checkpoint_file s' = Some (Script.line "UCa")
    /\ load_processed_channels s' = (Returned {["UCa"]}, s').
Proof.
  pose (s1 := snd (get_total_subscription_count Script.shrinking 5 (Script.start None))).
  destruct (partial_cycle_is_resumed Script.shrinking elements_order 5 3
              (Script.start None) s1
              (snd (fetch_pages Script.shrinking 5 5 None ∅ s1)) {["UCa"]})
    as (s' & Hrun & Hfile & Hload & _).
  - reflexivity.
  - vm_compute. reflexivity.
  - vm_compute. lia.
  - intros c Hc. apply elem_of_singleton in Hc as ->. reflexivity.
  - exists s'. split; [exact Hrun|]. split; [exact Hfile | exact Hload].
Defined.

(** ** A first run, from end to end *)

Section FirstRun.

Context {W : Type} (youtube : Api W) (order : SetOrder).

Variable stats : string -> option (list Statistics).
Variable channel_videos : string -> list (list Video).

(** Every statistics lookup is answered, with the items [stats id]. *)
Hypothesis lookups_give :
  forall id w, fst (videos_list youtube id w) = inr {| details_items := stats id |}.

Local Open Scope list_scope.

Lemma adds_nothing (s : Sys W) : adds s s [] [] [] [].
Proof. split; rewrite ?app_nil_r; reflexivity. Qed.

Lemma adds_then
    (s s1 s2 : Sys W) (r1 r2 r : list Row) (e1 e2 e : list (Level * Message))
    (l1 l2 l f1 f2 f : list string) :
  adds s s1 r1 e1 l1 f1 -> adds s1 s2 r2 e2 l2 f2 ->
  r = r1 ++ r2 -> e = e1 ++ e2 -> l = l1 ++ l2 -> f = f1 ++ f2 ->
  adds s s2 r e l f.
Proof.
  intros [V1 L1 K1 F1 C1 O1] [V2 L2 K2 F2 C2 O2] -> -> -> ->. split.
  - now rewrite V2, V1, app_assoc.
  - now rewrite L2, L1, app_assoc.
  - now rewrite K2, K1, app_assoc.
  - now rewrite F2, F1, app_assoc.
  - congruence.
  - congruence.
Qed.

Lemma adds_request (req : Request) (w : W) (s : Sys W) :
  adds s (with_remote w (with_requests (requests s ++ [req]) s))
    [] [] (lookups [req]) (first_searches [req]).
Proof.
  split; simpl; rewrite ?app_nil_r; try reflexivity.
  - unfold lookups. now rewrite omap_app.
  - unfold first_searches. now rewrite omap_app.
Qed.

Lemma adds_sleep (n : nat) (s : Sys W) : adds s (with_slept n s) [] [] [] [].
Proof. split; simpl; rewrite ?app_nil_r; reflexivity. Qed.

Lemma rows_of_app (ct : string) (a b : list Video) :
  rows_of stats ct (a ++ b) = rows_of stats ct a ++ rows_of stats ct b.
Proof.
  induction a as [|v a IH]; simpl; [reflexivity|]. now rewrite IH, app_assoc.
Qed.

Lemma open_items_app (P : gset string) (l1 l2 : list Subscription) :
  open_items P (l1 ++ l2)
  = open_items P l1 ++ open_items (P ∪ list_to_set (channelId <$> l1)) l2.
Proof.
  revert P. induction l1 as [|item l1 IH]; intros P; simpl.
  - f_equal. set_solver.
  - destruct (decide (channelId item ∈ P)) as [Hin|Hout]; rewrite IH; simpl.
    + do 2 f_equal. set_solver.
    + do 3 f_equal. set_solver.
Qed.

Lemma open_items_ids (P : gset string) (its : list Subscription) :
  channelId <$> open_items P its = to_process P (channelId <$> its).
Proof.
  revert P. induction its as [|item its IH]; intros P; simpl; [reflexivity|].
  destruct (decide (channelId item ∈ P)); simpl; now rewrite IH.
Qed.

Lemma elem_of_open_items (P : gset string) (its : list Subscription)
    (item : Subscription) :
  item ∈ open_items P its -> item ∈ its.
Proof.
  revert P. induction its as [|it its IH]; intros P; simpl; [easy|].
  destruct (decide (channelId it ∈ P)); intros H.
  - apply elem_of_cons. right. now apply (IH P).
  - apply elem_of_cons in H as [-> | H]; [apply elem_of_cons; now left|].
    apply elem_of_cons. right. now apply (IH _ H).
Qed.

Lemma videos_of_items_app (l1 l2 : list Subscription) :
  videos_of_items channel_videos (l1 ++ l2)
  = videos_of_items channel_videos l1 ++ videos_of_items channel_videos l2.
Proof.
  induction l1 as [|item l1 IH]; simpl; [reflexivity|]. now rewrite IH, app_assoc.
Qed.

Lemma rows_of_items_app (l1 l2 : list Subscription) :
  rows_of_items stats channel_videos (l1 ++ l2)
  = rows_of_items stats channel_videos l1 ++ rows_of_items stats channel_videos l2.
Proof.
  induction l1 as [|item l1 IH]; simpl; [reflexivity|]. now rewrite IH, app_assoc.
Qed.

(** One video: the lookup, the row if there is an item, the log entry. *)
Lemma process_video_adds (ct : string) (video : Video) (s : Sys W) :
  exists s',
    process_video youtube ct video s = (Returned tt, s')
    /\ adds s s' (rows_of_video stats ct video)
         [(INFO, saved_message (video_snippet_title video))] [videoId video] [].
Proof.
  unfold process_video, bind, execute. simpl.
  pose proof (lookups_give (videoId video) (remote s)) as Hans.
  destruct (videos_list youtube (videoId video) (remote s)) as [[e|d] w];
    simpl in Hans; [discriminate|]. injection Hans as ->. simpl.
  unfold rows_of_video.
  destruct (stats (videoId video)) as [[|st more]|]; simpl;
    (eexists; split; [reflexivity|]);
    (split; simpl; rewrite ?app_nil_r; try reflexivity);
    try (unfold lookups; now rewrite omap_app);
    try (unfold first_searches; rewrite omap_app; simpl; now rewrite app_nil_r).
Qed.

Lemma process_videos_adds (ct : string) (vs : list Video) (s : Sys W) :
  exists s',
    process_videos youtube ct vs s = (Returned tt, s')
    /\ adds s s' (rows_of stats ct vs) (saved_entries vs) (videoId <$> vs) [].
Proof.
  revert s. induction vs as [|v vs IH]; intros s; simpl.
  - exists s. split; [reflexivity | apply adds_nothing].
  - unfold bind at 1. destruct (process_video_adds ct v s) as (s1 & -> & A1).
    unfold bind at 1. simpl.
    destruct (IH (with_slept (slept s1 + 1) s1)) as (s2 & -> & A2).
    exists s2. split; [reflexivity|].
    eapply adds_then; [exact A1 | | reflexivity ..].
    eapply adds_then; [apply adds_sleep | exact A2 | reflexivity ..].
Qed.

(** The search loop of a channel whose videos come as [pages]. *)
Lemma process_subscription_loop_adds
    (c t ya : string) (token : option string) (pages : list (list Video)) :
  serves_videos youtube c token pages ->
  forall fuel s,
    length pages <= fuel ->
    exists s',
      process_subscription_loop youtube fuel c t ya token s = (Returned tt, s')
      /\ adds s s' (rows_of stats t (concat pages)) (saved_entries (concat pages))
           (videoId <$> concat pages)
           match token with
           | None => [c]
           | Some _ => []
           end.
Proof.
  induction 1 as [token page next Hpg Hnext | token page next rest Hpg Hnext _ IH];
    intros fuel s Hfuel;
    (destruct fuel as [|fuel]; [simpl in Hfuel; lia|]);
    simpl; unfold bind at 1, execute; simpl;
    specialize (Hpg ya (remote s));
    destruct (search_list youtube c ya token (remote s)) as [[e|pg] w];
    simpl in Hpg; try discriminate; injection Hpg as ->; simpl;
    unfold bind at 1;
    match goal with
    | |- context [process_videos youtube t page ?s1] =>
        destruct (process_videos_adds t page s1) as (s2 & -> & A2)
    end; rewrite Hnext.
  - exists s2. split; [reflexivity|]. rewrite app_nil_r.
    eapply adds_then; [apply (adds_request (ReqSearch c ya token) w s) | exact A2 | ..];
      try reflexivity.
    now destruct token.
  - unfold bind at 1. simpl.
    destruct (IH fuel (with_slept (slept s2 + 100) s2)) as (s3 & -> & A3);
      [simpl in Hfuel; lia|].
    exists s3. split; [reflexivity|].
    apply truthy_some in Hnext as (x & y & ->).
    eapply adds_then; [apply (adds_request (ReqSearch c ya token) w s) | | ..].
    + eapply adds_then; [exact A2 | | reflexivity ..].
      eapply adds_then; [apply adds_sleep | exact A3 | reflexivity ..].
    + simpl. now rewrite rows_of_app.
    + simpl. unfold saved_entries. now rewrite fmap_app.
    + simpl. now rewrite fmap_app.
    + simpl. rewrite !app_nil_r. now destruct token.
Qed.

Lemma process_subscription_adds (fuel : nat) (item : Subscription) (s : Sys W) :
  serves_videos youtube (channelId item) None (channel_videos (channelId item)) ->
  length (channel_videos (channelId item)) <= fuel ->
  exists s',
    process_subscription youtube fuel item s = (Returned tt, s')
    /\ adds s s'
         (rows_of stats (title item) (concat (channel_videos (channelId item))))
         (saved_entries (concat (channel_videos (channelId item))))
         (videoId <$> concat (channel_videos (channelId item)))
         [channelId item].
Proof.
  intros Hsrv Hfuel. unfold process_subscription, bind.
  exact (process_subscription_loop_adds _ _ _ _ _ Hsrv fuel s Hfuel).
Qed.

Lemma fetch_items_adds
    (fuel : nat) (its : list Subscription) (P : gset string) (s : Sys W) :
  (forall item : Subscription,
      item ∈ its ->
      serves_videos youtube (channelId item) None (channel_videos (channelId item))
      /\ length (channel_videos (channelId item)) <= fuel) ->
  exists s',
    fetch_items youtube fuel its P s
    = (Returned (P ∪ list_to_set (channelId <$> its)), s')
    /\ adds s s'
         (rows_of_items stats channel_videos (open_items P its))
         (saved_entries (videos_of_items channel_videos (open_items P its)))
         (videoId <$> videos_of_items channel_videos (open_items P its))
         (channelId <$> open_items P its).
Proof.
  revert P s. induction its as [|item its IH]; intros P s Hits; simpl.
  - exists s. split; [|apply adds_nothing]. now rewrite union_empty_r_L.
  - assert (Hrest : (forall item : Subscription,
      item ∈ its ->
      serves_videos youtube (channelId item) None (channel_videos (channelId item))
      /\ length (channel_videos (channelId item)) <= fuel)).
    { intros it Hit. apply Hits. apply elem_of_cons. now right. }
    unfold bind at 1. destruct (decide (channelId item ∈ P)) as [Hin|Hout]; simpl.
    + destruct (IH P s Hrest) as (s' & -> & A). exists s'.
      split; [|exact A]. do 2 f_equal. set_solver.
    + destruct (Hits item) as [Hsrv Hlen]; [apply elem_of_cons; now left|].
      unfold bind at 1.
      destruct (process_subscription_adds fuel item s Hsrv Hlen) as (s1 & -> & A1).
      simpl.
      destruct (IH ({[channelId item]} ∪ P) s1 Hrest) as (s' & -> & A). exists s'.
      split; [do 2 f_equal; set_solver|].
      eapply adds_then; [exact A1 | exact A | ..]; try reflexivity.
      * unfold saved_entries. now rewrite fmap_app.
      * now rewrite fmap_app.
Qed.

Lemma fetch_pages_adds
    (fuel : nat) (pages : list (list Subscription)) (token : option string) :
  serves youtube "snippet" token pages ->
  forall n P s,
    length pages <= n ->
    (forall item : Subscription,
      item ∈ (concat pages) ->
      serves_videos youtube (channelId item) None (channel_videos (channelId item))
      /\ length (channel_videos (channelId item)) <= fuel) ->
    exists s',
      fetch_pages youtube fuel n token P s
      = (Returned (P ∪ list_to_set (channelId <$> concat pages)), s')
      /\ adds s s'
           (rows_of_items stats channel_videos (open_items P (concat pages)))
           (saved_entries
              (videos_of_items channel_videos (open_items P (concat pages))))
           (videoId
              <$> videos_of_items channel_videos (open_items P (concat pages)))
           (channelId <$> open_items P (concat pages)).
Proof.
  induction 1 as [token page next Hans Hnext | token page next rest Hans Hnext _ IH];
    intros n P s Hn Hits;
    (destruct n as [|n]; [simpl in Hn; lia|]);
    simpl; unfold bind at 1, execute; simpl;
    specialize (Hans (remote s));
    destruct (subscriptions_list youtube "snippet" token (remote s)) as [[e|pg] w];
    simpl in Hans; try discriminate; injection Hans as ->; simpl;
    unfold bind at 1;
    (assert (Hpage : (forall item : Subscription,
      item ∈ page ->
      serves_videos youtube (channelId item) None (channel_videos (channelId item))
      /\ length (channel_videos (channelId item)) <= fuel))
      by (intros it Hit; apply Hits; simpl; apply elem_of_app; now left));
    match goal with
    | |- context [fetch_items youtube fuel page P ?s1] =>
        destruct (fetch_items_adds fuel page P s1 Hpage) as (s2 & -> & A2)
    end; rewrite Hnext.
  - exists s2. rewrite app_nil_r. split; [reflexivity|].
    eapply adds_then;
      [apply (adds_request (ReqSubscriptions "snippet" token) w s) | exact A2 | ..];
      reflexivity.
  - assert (Hrest : (forall item : Subscription,
      item ∈ (concat rest) ->
      serves_videos youtube (channelId item) None (channel_videos (channelId item))
      /\ length (channel_videos (channelId item)) <= fuel)).
    { intros it Hit. apply Hits. simpl. apply elem_of_app. now right. }
    destruct (IH n (P ∪ list_to_set (channelId <$> page)) s2) as (s3 & -> & A3);
      [simpl in Hn; lia | exact Hrest |].
    exists s3. split.
    + do 2 f_equal. rewrite fmap_app, list_to_set_app_L. set_solver.
    + rewrite open_items_app, rows_of_items_app, videos_of_items_app.
      eapply adds_then;
        [apply (adds_request (ReqSubscriptions "snippet" token) w s) | | ..].
      * eapply adds_then; [exact A2 | exact A3 | reflexivity ..].
      * reflexivity.
      * unfold saved_entries. now rewrite fmap_app.
      * now rewrite fmap_app.
      * now rewrite fmap_app.
Qed.

Lemma listing_requests_add_nothing (part : string) (tokens : list (option string)) :
  lookups (ReqSubscriptions part <$> tokens) = []
  /\ first_searches (ReqSubscriptions part <$> tokens) = [].
Proof. induction tokens as [|t ts [IH1 IH2]]; simpl; auto. Qed.

Lemma count_adds (fuel : nat) (pages : list (list Subscription)) (s : Sys W) :
  serves youtube "id" None pages ->
  length pages <= fuel ->
  exists s',
    get_total_subscription_count youtube fuel s
    = (Returned (length (concat pages)), s')
    /\ adds s s' [] [] [] [].
Proof.
  intros Hsrv Hfuel.
  destruct (count_loop_serves youtube pages None Hsrv fuel 0 s Hfuel) as [s' Hrun].
  exists s'. split; [exact Hrun|].
  destruct (count_loop_run youtube fuel 0 None s)
    as (tokens & Hreq & _ & Hf & Hv & Hl & Ho & _).
  unfold get_total_subscription_count in Hrun. rewrite Hrun in *. simpl in *.
  destruct (listing_requests_add_nothing "id" tokens) as [Hk He].
  split; rewrite ?app_nil_r; try assumption.
  - rewrite Hreq. unfold lookups in *. now rewrite omap_app, Hk, app_nil_r.
  - rewrite Hreq. unfold first_searches in *. now rewrite omap_app, He, app_nil_r.
Qed.

End FirstRun.

Section FirstRunClaim.

Context {W : Type} (youtube : Api W) (order : SetOrder).

(** C10. Without a checkpoint file [load_processed_channels] returns the
    empty set and raises nothing, so a first run starts from the empty
    checkpoint and processes every subscription:

    - a run that starts so and completes (its last log entry is the
      completion message) has entered [process_subscription] for every
      subscribed channel, once;
    - when the platform serves the subscriptions to the two passes within
      the rounds that the loops may make and every call of
      [process_subscription] returns, the run does return and complete;
    - when moreover the platform serves the videos of each subscribed
      channel as [channel_videos] says and answers the statistics lookup of
      a video with [stats], the run returns and completes; it has entered
      [process_subscription] for the subscriptions in their order, each
      channel at its first item and none left out; it has looked up every
      video of each of them, in order; the table has gained exactly the
      rows of these videos, the log their entries and the completion
      message; and the checkpoint file holds what the reset rule leaves of
      the set of all the channel ids. *)
Theorem first_run_processes_every_subscription (s0 : Sys W) :
  checkpoint_file s0 = None ->
  load_processed_channels s0 = (Returned ∅, s0)
  /\ (forall fuel pages s',
        serves youtube "snippet" None pages ->
        fetch_and_store_data youtube order fuel s0 = (Returned tt, s') ->
        last (log s') = Some (INFO, completed_message) ->
        exists entered,
          first_searches (requests s') = first_searches (requests s0) ++ entered
          /\ NoDup entered
          /\ forall c, c ∈ entered <-> c ∈ channelId <$> concat pages)
  /\ (forall fuel counted pages,
        serves youtube "id" None counted ->
        serves youtube "snippet" None pages ->
        length counted <= fuel ->
        length pages <= fuel ->
        (forall item s, exists s',
            process_subscription youtube fuel item s = (Returned tt, s')) ->
        exists s',
          fetch_and_store_data youtube order fuel s0 = (Returned tt, s')
          /\ last (log s') = Some (INFO, completed_message))
  /\ forall (stats : string -> option (list Statistics))
            (channel_videos : string -> list (list Video))
            fuel counted pages,
       (forall id w,
           fst (videos_list youtube id w) = inr {| details_items := stats id |}) ->
       serves youtube "id" None counted ->
       serves youtube "snippet" None pages ->
       length counted <= fuel ->
       length pages <= fuel ->
       (forall item,
           item ∈ concat pages ->
           serves_videos youtube (channelId item) None
             (channel_videos (channelId item))
           /\ length (channel_videos (channelId item)) <= fuel) ->
       exists s',
         fetch_and_store_data youtube order fuel s0 = (Returned tt, s')
         /\ last (log s') = Some (INFO, completed_message)
         /\ first_searches (requests s')
            = first_searches (requests s0)
              ++ (channelId <$> open_items ∅ (concat pages))
         /\ (forall item, item ∈ concat pages ->
               channelId item ∈ channelId <$> open_items ∅ (concat pages))
         /\ NoDup (channelId <$> open_items ∅ (concat pages))
         /\ lookups (requests s')
            = lookups (requests s0)
              ++ (videoId
                    <$> videos_of_items channel_videos
                          (open_items ∅ (concat pages)))
         /\ videos s'
            = videos s0
              ++ rows_of_items stats channel_videos (open_items ∅ (concat pages))
         /\ log s'
            = log s0
              ++ saved_entries
                   (videos_of_items channel_videos (open_items ∅ (concat pages)))
              ++ [(INFO, completed_message)]
         /\ checkpoint_file s'
            = Some (Text.write_lines
                      (iter_set order
                         (reset_when_complete
                            (list_to_set (channelId <$> concat pages))
                            (length (concat counted))))).
Proof.
  intros Hfile. split; [now apply load_without_file|]. split; [|split].
  - intros fuel pages s' Hpages E Hlast.
    apply fetch_and_store_data_shape in E.
    inversion E as [| | T s1 C s2 H1 H2 | T s1 e s2 H1 H2 |]; subst.
    + clear Hlast. rewrite Hfile in H2. simpl in H2.
      destruct (fetch_pages_run _ _ _ _ _ _ _ _ H2)
        as (walked & entered & Hreq & _ & Hret & Hsrv).
      destruct (Hret _ eq_refl) as [-> _].
      destruct (Hsrv _ Hpages) as [_ Hall]. rewrite (Hall _ eq_refl) in *.
      pose proof (enters_none_count_loop youtube fuel 0 None s0) as Hc.
      unfold get_total_subscription_count in H1. rewrite H1 in Hc. simpl in Hc.
      eexists. simpl. rewrite Hreq, Hc. split; [reflexivity|].
      split; [apply NoDup_to_process|].
      intros c. rewrite elem_of_to_process. set_solver.
    + simpl in Hlast. rewrite last_snoc in Hlast. discriminate.
  - intros fuel counted pages Hid Hsnippet Hcounted Hfuel Hps.
    destruct (count_adds youtube fuel counted s0 Hid Hcounted) as (s1 & Hcount & _).
    destruct (fetch_pages_returns youtube fuel pages None Hps Hsnippet fuel ∅ s1 Hfuel)
      as (C & s2 & Hpass).
    destruct (fetch_and_store_data youtube order fuel s0) as [r s'] eqn:E.
    apply fetch_and_store_data_shape in E.
    destruct E as [e s3 H | s3 H | T' s3 C' s4 H1 H2 | T' s3 e s4 H1 H2 | T' s3 s4 H1 H2];
      try congruence;
      rewrite Hcount in H1; injection H1 as <- <-;
      rewrite Hfile in H2; simpl in H2; rewrite Hpass in H2; try discriminate.
    eexists. split; [reflexivity|]. simpl. apply last_snoc.
  - intros stats channel_videos fuel counted pages
      Hgive Hid Hsnippet Hcounted Hfuel Hits.
    destruct (count_adds youtube fuel counted s0 Hid Hcounted) as (s1 & Hcount & A1).
    destruct (fetch_pages_adds youtube stats channel_videos Hgive
                fuel pages None Hsnippet fuel ∅ s1 Hfuel Hits)
      as (s2 & Hpass & A2).
    destruct (adds_then _ _ _ _ _ _ _ _ _ _ _ _ _ _ _ A1 A2
                eq_refl eq_refl eq_refl eq_refl) as [V L K F C O].
    destruct (fetch_and_store_data youtube order fuel s0) as [r s'] eqn:E.
    apply fetch_and_store_data_shape in E.
    destruct E as [e s3 H | s3 H | T' s3 C' s4 H1 H2 | T' s3 e s4 H1 H2 | T' s3 s4 H1 H2];
      try congruence;
      rewrite Hcount in H1; injection H1 as <- <-;
      rewrite Hfile in H2; simpl in H2; rewrite Hpass in H2; try discriminate.
    injection H2 as <- <-.
    eexists. split; [reflexivity|]. simpl.
    split; [apply last_snoc|]. split; [exact F|].
    split; [|split; [|split; [exact K|split; [exact V|split]]]].
    + intros item Hitem. rewrite open_items_ids. apply elem_of_to_process.
      split; [|set_solver]. apply list_elem_of_fmap. now exists item.
    + rewrite open_items_ids. apply NoDup_to_process.
    + now rewrite L, <- app_assoc.
    + now rewrite union_empty_l_L.
Qed.

End FirstRunClaim.

(** ** A first run on the scripted platform *)

(** No file, three subscriptions on two pages, one video each: the run
    completes, has entered the three channels and looked up their videos in
    order, has inserted the three rows, and, the three ids reaching the
    count of three, leaves an empty checkpoint file. *)
Lemma first_run_processes_every_subscription_witness :
  exists s',
    fetch_and_store_data Script.steady elements_order 5 (Script.start None)
    = (Returned tt, s')
    /\ last (log s') = Some (INFO, completed_message)
    /\ first_searches (requests s') = ["UCa"; "UCb"; "UCc"]
    /\ lookups (requests s') = ["v-UCa"; "v-UCb"; "v-UCc"]
    /\ videos s'
       = [ {| channel_title := "A"; video_title := "clip";
              views := JStr "10"; likes := JStr "2"; comment_count := JInt 0 |};
           {| channel_title := "B"; video_title := "clip";
              views := JStr "10"; likes := JStr "2"; comment_count := JInt 0 |};
           {| channel_title := "C"; video_title := "clip";
              views := JStr "10"; likes := JStr "2"; comment_count := JInt 0 |} ]
    /\ length (log s') = 4
    /\ checkpoint_file s' = Some "".
Proof.
  destruct (first_run_processes_every_subscription Script.steady elements_order
              (Script.start None) eq_refl)
    as (_ & _ & _ & Hrun).
  destruct (Hrun Script.full_stats
              (fun c => [[{| videoId := "v-" ++ c; video_snippet_title := "clip" |}]])
              5 Script.pages_abc Script.pages_abc)
    as (s' & Hret & Hlast & Hfirst & _ & _ & Hlook & Hrows & Hlog & Hfile).
  - intros id w. reflexivity.
  - apply platform_serves.
  - apply platform_serves.
  - simpl. lia.
  - simpl. lia.
  - intros item _. split; [|simpl; lia].
    eapply serves_videos_last with (next := None);
      [intros ya w; reflexivity | reflexivity].
  - exists s'. split; [exact Hret|]. split; [exact Hlast|].
    split; [rewrite Hfirst; vm_compute; reflexivity|].
    split; [rewrite Hlook; vm_compute; reflexivity|].
    split; [rewrite Hrows; vm_compute; reflexivity|].
    split; [rewrite Hlog; vm_compute; reflexivity|].
    rewrite Hfile. vm_compute. reflexivity.
Defined.
